(** * videogen-app: the convert / delete pipeline of [video.py]

    A shallow embedding of the Flask module [video.py]: the Asset Fetcher
    ([download_file]), the Image Normalizer ([resize_image]), the Duration
    Prober ([get_audio_duration]), the Sequence Planner and the Encoder
    Invoker (both inside [convert_to_video]), the cleanup block of
    [convert_to_video], the [delete_video] route and the [/resize-image]
    view with [resize_image_exact].

    Conventions of the embedding.
    - Python [int] is [Z]; Python [float] is an exact rational [Q]: the
      comparisons and the floor division that the module performs on floats
      are exact operations on the rationals that floats denote, so the
      rounding of IEEE arithmetic is the only thing left out.
    - Python [str] is [string]; the string methods the module calls are
      written out below ([py_split], [py_strip], [py_splitlines], ...).
    - A raised exception is a value of [exn]; a function that may raise
      returns [result].
    - The file system, the HTTP peers, the random identifiers and the two
      [ffmpeg] invocations are the [world]; the mutable part is the [state]
      threaded through every call. *)

From Stdlib Require Import ZArith QArith Qround String Ascii List Lia Lqa Bool.
From stdpp Require Import base option list gmap strings pretty.

Import ListNotations.
Local Open Scope Z_scope.
Local Open Scope string_scope.

(** ** Python values used by the module *)

Inductive exn : Type :=
  | IndexError
  | ValueError
  | TypeError
  | OSError
  | RequestException
  | CalledProcessError (returncode : Z).

Inductive result (A : Type) : Type :=
  | Ok (a : A)
  | Raise (e : exn).
Arguments Ok {A} a.
Arguments Raise {A} e.

(** [seq * n] on lists: [n] copies of [seq], none when [n <= 0]. *)
Fixpoint list_repeat {A : Type} (l : list A) (n : nat) : list A :=
  match n with
  | O => []
  | S k => l ++ list_repeat l k
  end.

Definition py_list_mul {A : Type} (l : list A) (n : Z) : list A :=
  list_repeat l (Z.to_nat n).

(** [len(l)] as a Python integer. *)
Definition py_len {A : Type} (l : list A) : Z := Z.of_nat (length l).

(** ** Sequence Planner ([convert_to_video], lines 228-231)

    [num_images = len(image_paths)];
    [if num_images * 3 < audio_duration:]
    [    repeat_count = int(audio_duration // 3) + 1]
    [    image_paths = image_paths * repeat_count]. *)

Definition float_floordiv (a b : Q) : Q := inject_Z (Qfloor (a / b)).

Definition py_int (a : Q) : Z := Qfloor a.

Definition plan_images (image_paths : list string) (audio_duration : Q) : list string :=
  let num_images := py_len image_paths in
  if Qlt_le_dec (inject_Z (num_images * 3)) audio_duration then
    let repeat_count := py_int (float_floordiv audio_duration (inject_Z 3)) + 1 in
    py_list_mul image_paths repeat_count
  else image_paths.

(** ** Python string methods

    Strings are ASCII text.  Each function below is the [str] method of the
    same name, restricted to the ASCII range. *)

Definition string_rev (s : string) : string :=
  string_of_list_ascii (rev (list_ascii_of_string s)).

(** [sub in s]. *)
Fixpoint py_in (sub s : string) : bool :=
  if String.prefix sub s then true
  else match s with
       | EmptyString => false
       | String _ s' => py_in sub s'
       end.

(** [s.split(sep)] for a non-empty [sep]: the pieces between the
    non-overlapping occurrences of [sep], scanned from the left.  [skip]
    counts the characters of a matched separator still to be dropped and
    [cur] holds the current piece, reversed. *)
Fixpoint split_go (sep s : string) (skip : nat) (cur : list ascii) : list string :=
  match s with
  | EmptyString => [string_of_list_ascii (rev cur)]
  | String c s' =>
      match skip with
      | S k => split_go sep s' k cur
      | O =>
          if String.prefix sep s
          then string_of_list_ascii (rev cur) :: split_go sep s' (String.length sep - 1) []
          else split_go sep s' O (c :: cur)
      end
  end.

Definition py_split (sep s : string) : list string := split_go sep s O [].

(** [sep.join(parts)]. *)
Fixpoint py_join (sep : string) (parts : list string) : string :=
  match parts with
  | [] => ""
  | [p] => p
  | p :: rest => p ++ sep ++ py_join sep rest
  end.

(** [s.replace(old, new)] for a non-empty [old]. *)
Definition py_replace (old new s : string) : string := py_join new (py_split old s).

(** ASCII characters for which [str.isspace] holds: tab, line feed,
    vertical tab, form feed, carriage return, the separators 0x1c-0x1f and
    the space. *)
Definition is_space (c : ascii) : bool :=
  let n := N_of_ascii c in
  ((9 <=? n) && (n <=? 13) || (28 <=? n) && (n <=? 32))%N.

Fixpoint lstrip_by (p : ascii -> bool) (s : string) : string :=
  match s with
  | EmptyString => EmptyString
  | String c s' => if p c then lstrip_by p s' else s
  end.

Definition strip_by (p : ascii -> bool) (s : string) : string :=
  string_rev (lstrip_by p (string_rev (lstrip_by p s))).

(** [s.strip()]. *)
Definition py_strip (s : string) : string := strip_by is_space s.

Fixpoint char_in (c : ascii) (chars : string) : bool :=
  match chars with
  | EmptyString => false
  | String d rest => if Ascii.eqb c d then true else char_in c rest
  end.

(** [s.strip(chars)]. *)
Definition py_strip_chars (chars s : string) : string :=
  strip_by (fun c => char_in c chars) s.

(** [s.split()]: the maximal runs of non-space characters. *)
Fixpoint split_ws_go (s : string) (cur : list ascii) : list string :=
  let flush := match cur with
               | [] => []
               | _ => [string_of_list_ascii (rev cur)]
               end in
  match s with
  | EmptyString => flush
  | String c s' =>
      if is_space c then flush ++ split_ws_go s' []
      else split_ws_go s' (c :: cur)
  end.

Definition py_split_ws (s : string) : list string := split_ws_go s [].

(** Line boundaries of [str.splitlines] in the ASCII range: line feed,
    vertical tab, form feed, carriage return and 0x1c-0x1e; a carriage
    return followed by a line feed is one boundary. *)
Definition is_linebreak (c : ascii) : bool :=
  let n := N_of_ascii c in
  ((10 <=? n) && (n <=? 13) || (28 <=? n) && (n <=? 30))%N.

Definition CR : ascii := ascii_of_N 13.
Definition LF : ascii := ascii_of_N 10.

(** [after_cr] records that the previous character was a carriage return,
    so that a line feed right after it opens no new line. *)
Fixpoint splitlines_go (s : string) (after_cr : bool) (cur : list ascii) : list string :=
  match s with
  | EmptyString =>
      match cur with
      | [] => []
      | _ => [string_of_list_ascii (rev cur)]
      end
  | String c s' =>
      if after_cr && Ascii.eqb c LF then splitlines_go s' false cur
      else if is_linebreak c
           then string_of_list_ascii (rev cur) :: splitlines_go s' (Ascii.eqb c CR) []
           else splitlines_go s' false (c :: cur)
  end.

Definition py_splitlines (s : string) : list string := splitlines_go s false [].

(** [l[i]]: [IndexError] out of range (only non-negative indices occur). *)
Definition py_index {A : Type} (l : list A) (i : nat) : result A :=
  match nth_error l i with
  | Some a => Ok a
  | None => Raise IndexError
  end.

(** [float(s)] on the decimal literals [[+-]digits[.digits]], [[+-].digits]
    and [[+-]digits.], surrounded by optional white space; anything else is
    [None], Python's [ValueError].  (Python also reads exponents, digit
    group underscores, [inf] and [nan]; none of them occurs in a
    [HH:MM:SS.fraction] time stamp.) *)
Definition digit_val (c : ascii) : option Z :=
  let n := N_of_ascii c in
  if ((48 <=? n) && (n <=? 57))%N then Some (Z.of_N n - 48) else None.

Fixpoint digits_go (s : string) (acc : Z) : option Z :=
  match s with
  | EmptyString => Some acc
  | String c s' =>
      match digit_val c with
      | Some d => digits_go s' (10 * acc + d)
      | None => None
      end
  end.

Definition digits_val (s : string) : option Z := digits_go s 0.

Definition unsigned_float (s : string) : option Q :=
  match py_split "." s with
  | [i] =>
      if String.eqb i "" then None
      else match digits_val i with
           | Some n => Some (inject_Z n)
           | None => None
           end
  | [i; f] =>
      if String.eqb i "" && String.eqb f "" then None
      else match digits_val i, digits_val f with
           | Some n, Some m =>
               Some (inject_Z n + inject_Z m / inject_Z (10 ^ Z.of_nat (String.length f)))%Q
           | _, _ => None
           end
  | _ => None
  end.

Definition py_float (s : string) : option Q :=
  match py_strip s with
  | String "-" rest => option_map Qopp (unsigned_float rest)
  | String "+" rest => unsigned_float rest
  | t => unsigned_float t
  end.

(** The characters of [s] that satisfy [p], in their order. *)
Fixpoint string_filter (p : ascii -> bool) (s : string) : string :=
  match s with
  | EmptyString => EmptyString
  | String c s' => if p c then String c (string_filter p s') else string_filter p s'
  end.

(** [s.lower()] on ASCII text. *)
Definition lower_char (c : ascii) : ascii :=
  let n := N_of_ascii c in
  if ((65 <=? n) && (n <=? 90))%N then ascii_of_N (n + 32) else c.

Fixpoint py_lower (s : string) : string :=
  match s with
  | EmptyString => EmptyString
  | String c s' => String (lower_char c) (py_lower s')
  end.

Fixpoint string_drop (n : nat) (s : string) : string :=
  match n, s with
  | S k, String _ s' => string_drop k s'
  | _, _ => s
  end.

(** The text before and after the leftmost occurrence of a non-empty
    [sep] in [s], if there is one; [cur] is the text passed, reversed. *)
Fixpoint partition_go (sep s : string) (cur : list ascii) : option (string * string) :=
  if String.prefix sep s
  then Some (string_of_list_ascii (rev cur), string_drop (String.length sep) s)
  else match s with
       | EmptyString => None
       | String c s' => partition_go sep s' (c :: cur)
       end.

(** [s.rsplit(sep, 1)]: one split, at the rightmost occurrence of [sep]. *)
Definition py_rsplit1 (sep s : string) : list string :=
  match partition_go (string_rev sep) (string_rev s) [] with
  | Some (after, before) => [string_rev before; string_rev after]
  | None => [s]
  end.

(** ** Duration Prober ([get_audio_duration], lines 96-118) *)

(** Lines 114-117, run on the first line that contains ['Duration']:
    [duration_str = line.split('Duration:')[1].split(',')[0].strip()],
    [hours, minutes, seconds = map(float, duration_str.split(':'))].
    Unpacking fewer or more than three parts and a part that [float]
    rejects both raise [ValueError]. *)
Definition parse_duration_line (line : string) : result Q :=
  match py_index (py_split "Duration:" line) 1 with
  | Raise e => Raise e
  | Ok after =>
      match py_index (py_split "," after) 0 with
      | Raise e => Raise e
      | Ok field =>
          let duration_str := py_strip field in
          match py_split ":" duration_str with
          | [h; m; s] =>
              match py_float h, py_float m, py_float s with
              | Some hours, Some minutes, Some seconds =>
                  Ok (hours * inject_Z 3600 + minutes * inject_Z 60 + seconds)%Q
              | _, _, _ => Raise ValueError
              end
          | _ => Raise ValueError
          end
      end
  end.

(** The [for line in result.stderr.splitlines()] loop with its [return]
    inside and [return 0] after it. *)
Fixpoint scan_duration (lines : list string) : result Q :=
  match lines with
  | [] => Ok 0%Q
  | line :: rest =>
      if py_in "Duration" line then parse_duration_line line
      else scan_duration rest
  end.

(** ** The world outside the module *)

(** What a file holds: an image that the imaging library decodes, known by
    its pixel size; bytes that are no image; or text lines.  [Img] is an
    image in a mode that the JPEG, PNG and WebP writers all take (RGB, L);
    [ImgAlpha] is one with an alpha channel or a palette (RGBA, LA, P),
    which the JPEG writer refuses. *)
Inductive content : Type :=
  | Img (width height : Z)
  | Blob
  | Text (lines : list string)
  | ImgAlpha (width height : Z).

Inductive node : Type :=
  | File (c : content)
  | Dir.

(** What [requests.get(url, stream=True)] and the chunk loop meet: no
    connection (an exception of [requests.get]), or a reply with its status
    code and body; [complete = false] is a body stream that breaks off, an
    exception of [iter_content] after the file was opened. *)
Inductive http_reply : Type :=
  | ConnectionFailed
  | Reply (status_code : Z) (body : content) (complete : bool).

(** The parameters of one encoder run, the command of lines 264-270. *)
Record encode_job : Type := {
  job_sequence_file : string;
  job_audio_path : string;
  job_codec : string;
  job_preset : string;
  job_frame_rate : Z;
  job_pix_fmt : string;
  job_scale : Z * Z;
  job_duration_cap : Q;
  job_threads : Z;
  job_max_muxing_queue_size : Z;
  job_output : string
}.

Record world : Type := {
  http_get : string -> http_reply;
  (** [str(uuid.uuid4())], by the number of identifiers drawn before *)
  uuid4 : nat -> string;
  (** standard error of [ffmpeg -i audio_path] *)
  ffmpeg_probe : string -> string;
  (** exit status of the encoder command *)
  ffmpeg_encode : encode_job -> Z;
  (** the working directory, absolute *)
  getcwd : string;
  (** files that [os.remove] is refused on, by resolved path *)
  remove_denied : list string -> bool;
  (** [unicodedata.normalize("NFKD", s)] *)
  normalize_NFKD : string -> string;
  (** the imaging library's writers beyond JPEG, PNG and WebP, by
      lower-cased file extension: [None] is an extension without a writer,
      [Some b] one whose writer takes the image ([b]) or refuses it *)
  other_writer : string -> content -> option bool;
  (** the folder of [video.py] (the application's [root_path]), named from
      the working directory; empty when the server runs in that folder *)
  app_root : string;
  (** whether the imaging library can crop and scale this image to this
      width and height (memory, resampling filter) *)
  fits : content -> Z -> Z -> bool;
  (** whether the image served at a URL has a format that the imaging
      library also writes *)
  resavable : string -> bool
}.

(** The mutable part: the files, keyed by resolved path, and the number of
    identifiers drawn. *)
Record state : Type := {
  fs : gmap (list string) node;
  drawn : nat
}.

Definition set_fs (f : gmap (list string) node -> gmap (list string) node) (st : state) : state :=
  {| fs := f (fs st); drawn := drawn st |}.

(** ** Paths *)

(** [os.path.join(a, b)]. *)
Definition path_join (a b : string) : string :=
  if String.prefix "/" b then b
  else if String.eqb a "" || String.prefix "/" (string_rev a) then a ++ b
  else a ++ "/" ++ b.

(** Path resolution: empty and ["."] components are dropped and [".."]
    leaves the directory reached so far; a [".."] that climbs above the
    working directory is kept, and an absolute path starts with the
    component ["/"]. [stack] is the resolved prefix, innermost first. *)
Fixpoint resolve_go (comps : list string) (stack : list string) : list string :=
  match comps with
  | [] => rev stack
  | c :: rest =>
      if String.eqb c "" || String.eqb c "." then resolve_go rest stack
      else if String.eqb c ".." then
        match stack with
        | [] => resolve_go rest [".."]
        | top :: below =>
            if String.eqb top "/" then resolve_go rest stack
            else if String.eqb top ".." then resolve_go rest (".." :: stack)
            else resolve_go rest below
        end
      else resolve_go rest (c :: stack)
  end.

Definition resolve (p : string) : list string :=
  resolve_go (py_split "/" p) (if String.prefix "/" p then ["/"] else []).

(** A path with a trailing slash names a directory only. *)
Definition wants_dir (p : string) : bool := String.prefix "/" (string_rev p).

Definition stat (st : state) (p : string) : option node :=
  match fs st !! resolve p with
  | Some (File c) => if wants_dir p then None else Some (File c)
  | other => other
  end.

(** [os.path.exists(p)] and [os.path.isfile(p)]. *)
Definition path_exists (st : state) (p : string) : bool :=
  match stat st p with
  | Some _ => true
  | None => false
  end.

Definition path_isfile (st : state) (p : string) : bool :=
  match stat st p with
  | Some (File _) => true
  | _ => false
  end.

(** [os.path.abspath(p)]. *)
Definition abspath (w : world) (p : string) : string :=
  match resolve (path_join (getcwd w) p) with
  | "/" :: comps => "/" ++ py_join "/" comps
  | comps => py_join "/" comps
  end.

(** ** State and exceptions *)

Definition M (A : Type) : Type := state -> result A * state.

Definition ret {A : Type} (a : A) : M A := fun st => (Ok a, st).

Definition raise {A : Type} (e : exn) : M A := fun st => (Raise e, st).

Definition bind {A B : Type} (m : M A) (k : A -> M B) : M B :=
  fun st =>
    match m st with
    | (Ok a, st') => k a st'
    | (Raise e, st') => (Raise e, st')
    end.

Notation "'let*' x ':=' m 'in' k" := (bind m (fun x => k))
  (at level 10, x name, m at level 100, k at level 200).
Notation "'run' m 'in' k" := (bind m (fun _ => k))
  (at level 10, m at level 100, k at level 200).

(** [try: body  finally: fin]: [fin] runs whatever [body] did; an exception
    of [fin] replaces the outcome of [body]. *)
Definition try_finally {A : Type} (body : M A) (fin : M unit) : M A :=
  fun st =>
    let '(r, st1) := body st in
    match fin st1 with
    | (Ok _, st2) => (r, st2)
    | (Raise e, st2) => (Raise e, st2)
    end.

(** [try: body  except Exception: handler]. *)
Definition try_except {A : Type} (body : M A) (handler : exn -> M A) : M A :=
  fun st =>
    match body st with
    | (Ok a, st') => (Ok a, st')
    | (Raise e, st') => handler e st'
    end.

(** Whether [open(p, mode)] in a writing mode succeeds: [p] names no
    directory, and it names an existing regular file or a new entry of an
    existing directory.  The working directory exists; every other
    directory is known through [fs]. *)
Definition can_open (st : state) (p : string) : bool :=
  negb (wants_dir p) &&
  match fs st !! resolve p with
  | Some (File _) => true
  | Some Dir => false
  | None =>
      match last (resolve p) with
      | None => false
      | Some name =>
          negb (String.eqb name ".." || String.eqb name "/") &&
          match removelast (resolve p) with
          | [] => true
          | parent =>
              match fs st !! parent with
              | Some Dir => true
              | _ => false
              end
          end
      end
  end.

(** [open(p, mode)] in a writing mode followed by the writes and the close:
    the file at [p] holds [c] afterwards; [open] raises where it cannot
    create the file. *)
Definition write_file (p : string) (c : content) : M unit :=
  fun st =>
    if can_open st p then (Ok tt, set_fs (insert (resolve p) (File c)) st)
    else (Raise OSError, st).

(** What an external tool that exits with status zero has done: its
    output file is there. *)
Definition tool_output (p : string) (c : content) : M unit :=
  fun st => (Ok tt, set_fs (insert (resolve p) (File c)) st).

(** [os.remove(p)]: removes a regular file; a missing path, a directory and
    a refused removal raise. *)
Definition os_remove (w : world) (p : string) : M unit :=
  fun st =>
    match stat st p with
    | Some (File _) =>
        if remove_denied w (resolve p) then (Raise OSError, st)
        else (Ok tt, set_fs (delete (resolve p)) st)
    | _ => (Raise OSError, st)
    end.

(** [str(uuid.uuid4())]. *)
Definition fresh_uuid (w : world) : M string :=
  fun st => (Ok (uuid4 w (drawn st)), {| fs := fs st; drawn := S (drawn st) |}).

(** ** Module constants (lines 18-20) *)

Definition UPLOAD_FOLDER : string := "uploads".
Definition VIDEO_FOLDER : string := "videos".

(** ** Image Normalizer: [resize_image(image_path)] (lines 121-142) *)

(** [img.size] of a decodable image. *)
Definition image_size (c : content) : option (Z * Z) :=
  match c with
  | Img width height => Some (width, height)
  | ImgAlpha width height => Some (width, height)
  | _ => None
  end.

(** [img.resize((width, height))]: the same kind of image in the size
    asked for. *)
Definition with_size (c : content) (width height : Z) : content :=
  match c with
  | ImgAlpha _ _ => ImgAlpha width height
  | _ => Img width height
  end.

(** [os.path.basename(p)] and [os.path.splitext(p)[1]]: the extension
    starts at the last dot of the last component, unless only dots come
    before it there. *)
Definition basename (p : string) : string :=
  match py_rsplit1 "/" p with
  | [_; name] => name
  | _ => p
  end.

Definition splitext_ext (p : string) : string :=
  match py_rsplit1 "." (basename p) with
  | [stem; extension] =>
      if String.eqb (string_filter (fun c => negb (Ascii.eqb c ".")) stem) ""
      then "" else "." ++ extension
  | _ => ""
  end.

(** [save(path)] without a format picks the writer by the lower-cased
    extension of the path: [None] when no writer is registered for it,
    otherwise whether that writer takes the image. *)
Definition writer_takes (w : world) (path : string) (c : content) : option bool :=
  let ext := py_lower (splitext_ext path) in
  if String.eqb ext ".jpg" || String.eqb ext ".jpeg" then
    Some (match c with
          | Img _ _ => true
          | _ => false
          end)
  else if String.eqb ext ".png" || String.eqb ext ".webp" then Some true
  else other_writer w ext c.

(** [Image.open] raises on a path that holds no decodable image;
    [img.resize((width, height))] has the size asked for;
    [resized_img.save(image_path)] raises for an unknown extension before
    it opens the file, and for an image that the writer refuses after it
    has opened, and so emptied, the file. *)
Definition resize_image (w : world) (image_path : string) : M unit :=
  fun st =>
    match stat st image_path with
    | Some (File img) =>
        match image_size img with
        | Some (width, height) =>
            let width := if negb (width mod 2 =? 0)%Z then width + 1 else width in
            let height := if negb (height mod 2 =? 0)%Z then height + 1 else height in
            let resized_img := with_size img width height in
            match writer_takes w image_path resized_img with
            | None => (Raise ValueError, st)
            | Some true => write_file image_path resized_img st
            | Some false => (run write_file image_path Blob in raise OSError) st
            end
        | None => (Raise OSError, st)
        end
    | _ => (Raise OSError, st)
    end.

(** ** The name [resize_image] in the module's namespace

    The module defines [resize_image] twice: at line 122 the even-dimension
    fixup [def resize_image(image_path)], at line 350 the view function of
    the route [/resize-image], [def resize_image()], which takes no
    parameter ([app.route] hands the decorated function back unchanged).
    A [def] statement binds its name when it runs, so once the module is
    loaded the name means the definition that ran last. *)
Inductive resize_image_def : Type :=
  | Def_line_122
  | Def_line_350.

(** The [def resize_image] statements in the order the module runs them. *)
Definition resize_image_defs : list resize_image_def := [Def_line_122; Def_line_350].

(** What the global name [resize_image] is bound to when a request is
    served. *)
Definition module_resize_image : resize_image_def := List.last resize_image_defs Def_line_122.

(** The call [resize_image(file_path)] of line 174, through whatever the
    name is bound to: one positional argument for a function without
    parameters is a [TypeError], raised before its body runs. *)
Definition call_resize_image (bound : resize_image_def) (w : world)
    (file_path : string) : M unit :=
  match bound with
  | Def_line_122 => resize_image w file_path
  | Def_line_350 => raise TypeError
  end.

(** ** Asset Fetcher: [download_file] (lines 146-179) *)

Definition is_image_extension (extension : string) : bool :=
  existsb (String.eqb extension) ["jpg"; "png"; "jpeg"; "webp"].

(** Lines 168-170: the file is opened for writing, then the chunks are
    written; a stream that breaks off leaves the truncated file behind. *)
Definition stream_to_file (file_path : string) (body : content) (complete : bool) : M unit :=
  if complete then write_file file_path body
  else run write_file file_path Blob in raise RequestException.

(** The [try] block, lines 160-176; falling out of the [if] is [ret None]
    here, the [return None] of line 179. *)
Definition download_file_try (bound : resize_image_def) (w : world)
    (url extension folder : string) : M (option string) :=
  match http_get w url with
  | ConnectionFailed => raise RequestException
  | Reply status_code body complete =>
      if (status_code =? 200)%Z then
        let* uuid := fresh_uuid w in
        let filename := uuid ++ "." ++ extension in
        let file_path := path_join folder filename in
        run stream_to_file file_path body complete in
        run (if is_image_extension extension
             then call_resize_image bound w file_path
             else ret tt) in
        ret (Some file_path)
      else ret None
  end.

(** [except Exception as e: print(...)] and then [return None]. *)
Definition download_file (bound : resize_image_def) (w : world)
    (url extension folder : string) : M (option string) :=
  try_except (download_file_try bound w url extension folder) (fun _ => ret None).

(** ** Responses *)

(** A message is a literal or an f-string that ends in [str(e)]. *)
Inductive message : Type :=
  | Lit (text : string)
  | WithExn (text : string) (e : exn).

Inductive payload : Type :=
  | JsonError (error : message)
  | JsonStatus (status : string) (msg : message)
  | Attachment (path : string).

Record response : Type := {
  resp_payload : payload;
  resp_status : Z
}.

Definition json_error (text : string) (code : Z) : response :=
  {| resp_payload := JsonError (Lit text); resp_status := code |}.

(** ** The convert route: [convert_to_video] (lines 183-287) *)

(** A value handed to [requests.get] or to [download_file] as the URL:
    a string, or anything else. *)
Inductive url_arg : Type :=
  | UrlText (s : string)
  | NotText.

(** A JSON value under a key of the body: [JScalar] is [null], a boolean
    or a number; [JItems] is an array, by its elements, or an object, by
    its keys. *)
Inductive json_value : Type :=
  | JScalar
  | JString (s : string)
  | JItems (items : list url_arg).

(** The JSON body, an object; [None] is a key that the body does not
    have. *)
Record convert_request : Type := {
  audio_url : option json_value;
  image_urls : option json_value
}.

Definition as_url (v : json_value) : url_arg :=
  match v with
  | JString s => UrlText s
  | _ => NotText
  end.

(** [for x in v]: a string yields its characters, an array its elements,
    an object its keys; a scalar is not iterable. *)
Definition py_iter (v : json_value) : result (list url_arg) :=
  match v with
  | JScalar => Raise TypeError
  | JString s => Ok (map (fun c => UrlText (String c "")) (list_ascii_of_string s))
  | JItems items => Ok items
  end.

(** [download_file(url, extension, folder)] on a JSON value: what is no
    string makes [requests.get] raise inside the [try] block. *)
Definition fetch (bound : resize_image_def) (w : world) (url : url_arg)
    (extension folder : string) : M (option string) :=
  match url with
  | UrlText u => download_file bound w u extension folder
  | NotText => ret None
  end.

(** Truth value of the result of [download_file]: [None] and the empty
    string are false. *)
Definition truthy (p : option string) : option string :=
  match p with
  | Some s => if String.eqb s "" then None else Some s
  | None => None
  end.

(** Lines 211-215: the download loop. *)
Fixpoint download_images (bound : resize_image_def) (w : world)
    (image_urls : list url_arg) (image_paths : list string) : M (list string) :=
  match image_urls with
  | [] => ret image_paths
  | img_url :: rest =>
      let* img_path := fetch bound w img_url "jpg" UPLOAD_FOLDER in
      match truthy img_path with
      | Some p => download_images bound w rest (image_paths ++ [p])
      | None => download_images bound w rest image_paths
      end
  end.

(** Lines 244-247: the concat script, two lines per image. *)
Definition sequence_lines (w : world) (image_paths : list string) : list string :=
  flat_map (fun image => ["file '" ++ abspath w image ++ "'"; "duration 3"]) image_paths.

(** Lines 264-270. *)
Definition encoder_command (img_sequence_file audio_path : string)
    (audio_duration : Q) (video_path : string) : encode_job :=
  {| job_sequence_file := img_sequence_file;
     job_audio_path := audio_path;
     job_codec := "libx264";
     job_preset := "medium";
     job_frame_rate := 25;
     job_pix_fmt := "yuv420p";
     job_scale := (720, 1280);
     job_duration_cap := audio_duration;
     job_threads := 4;
     job_max_muxing_queue_size := 1024;
     job_output := video_path |}.

(** [subprocess.run(cmd, check=True)]: exit status zero leaves the video at
    the output path, any other raises [CalledProcessError]. *)
Definition run_encoder (w : world) (cmd : encode_job) : M unit :=
  let returncode := ffmpeg_encode w cmd in
  if (returncode =? 0)%Z then tool_output (job_output cmd) Blob
  else raise (CalledProcessError returncode).

(** [send_file(video_path, as_attachment=True)]: a relative path is looked
    up under the application's [root_path]. *)
Definition send_file (w : world) (video_path : string) : M response :=
  fun st =>
    if path_isfile st (path_join (app_root w) video_path)
    then (Ok {| resp_payload := Attachment video_path; resp_status := 200 |}, st)
    else (Raise OSError, st).

(** Lines 283-285. *)
Fixpoint remove_images (w : world) (image_paths : list string) : M unit :=
  match image_paths with
  | [] => ret tt
  | image_path :: rest =>
      run (fun st => if path_exists st image_path
                     then os_remove w image_path st
                     else ret tt st) in
      remove_images w rest
  end.

(** The [finally] block, lines 279-287. *)
Definition cleanup (w : world) (audio_path : string) (image_paths : list string)
    (img_sequence_file : string) : M unit :=
  run os_remove w audio_path in
  run remove_images w image_paths in
  fun st => if path_exists st img_sequence_file
            then os_remove w img_sequence_file st
            else ret tt st.

Definition get_audio_duration (w : world) (audio_path : string) : M Q :=
  fun st => (scan_duration (py_splitlines (ffmpeg_probe w audio_path)), st).

Definition convert_to_video (bound : resize_image_def) (w : world)
    (data : convert_request) : M response :=
  match audio_url data, image_urls data with
  | Some audio_url, Some image_urls =>
      let* audio_path := fetch bound w (as_url audio_url) "mp3" UPLOAD_FOLDER in
      match truthy audio_path with
      | None => ret (json_error "Failed to download audio file." 400)
      | Some audio_path =>
          let* image_paths :=
            match py_iter image_urls with
            | Ok items => download_images bound w items []
            | Raise e => raise e
            end in
          match image_paths with
          | [] => ret (json_error "No valid images downloaded." 400)
          | _ :: _ =>
              let* audio_duration := get_audio_duration w audio_path in
              if Qeq_bool audio_duration 0
              then ret (json_error "Could not determine the audio duration." 500)
              else
                let image_paths := plan_images image_paths audio_duration in
                let* video_uuid := fresh_uuid w in
                let video_filename := video_uuid ++ "_output_video.mp4" in
                let video_path := path_join VIDEO_FOLDER video_filename in
                let* sequence_uuid := fresh_uuid w in
                let img_sequence_filename := sequence_uuid ++ "_img_sequence.txt" in
                let img_sequence_file := path_join UPLOAD_FOLDER img_sequence_filename in
                try_finally
                  (try_except
                     (run write_file img_sequence_file (Text (sequence_lines w image_paths)) in
                      let cmd := encoder_command img_sequence_file audio_path
                                   audio_duration video_path in
                      run run_encoder w cmd in
                      send_file w video_path)
                     (fun e =>
                        match e with
                        | CalledProcessError _ =>
                            ret {| resp_payload :=
                                     JsonError (WithExn "Error during video generation: " e);
                                   resp_status := 500 |}
                        | _ => raise e
                        end))
                  (cleanup w audio_path image_paths img_sequence_file)
          end
      end
  | _, _ => ret (json_error "audio_url and image_urls are required." 400)
  end.

(** ** [werkzeug.utils.secure_filename], on a POSIX host

    [filename = unicodedata.normalize("NFKD", filename)];
    [filename = filename.encode("ascii", "ignore").decode("ascii")];
    every [os.sep] becomes a space ([os.path.altsep] is [None]);
    [str(_filename_ascii_strip_re.sub("", "_".join(filename.split()))).strip("._")]
    with [_filename_ascii_strip_re = re.compile(r"[^A-Za-z0-9_.-]")]. *)

Definition is_ascii (c : ascii) : bool := (N_of_ascii c <? 128)%N.

Definition ascii_ignore (s : string) : string := string_filter is_ascii s.

Definition is_filename_char (c : ascii) : bool :=
  let n := N_of_ascii c in
  ((65 <=? n) && (n <=? 90) || (97 <=? n) && (n <=? 122) || (48 <=? n) && (n <=? 57)
   || (n =? 95) || (n =? 46) || (n =? 45))%N.

Definition filename_ascii_strip (s : string) : string := string_filter is_filename_char s.

Definition secure_filename (w : world) (filename : string) : string :=
  let filename := normalize_NFKD w filename in
  let filename := ascii_ignore filename in
  let filename := py_replace "/" " " filename in
  py_strip_chars "._" (filename_ascii_strip (py_join "_" (py_split_ws filename))).

(** ** The delete route: [delete_video] (lines 290-346) *)

Record delete_request : Type := {
  filename : option string
}.

Definition json_status (status : string) (msg : message) (code : Z) : response :=
  {| resp_payload := JsonStatus status msg; resp_status := code |}.

Definition delete_video (w : world) (data : delete_request) : M response :=
  match filename data with
  | None => ret (json_status "error" (Lit "filename is required.") 400)
  | Some filename =>
      let filename := secure_filename w filename in
      let video_path := path_join VIDEO_FOLDER filename in
      fun st =>
        if negb (path_exists st video_path)
        then ret (json_status "error"
                    (Lit ("Video file '" ++ filename ++ "' not found.")) 404) st
        else if negb (path_isfile st video_path)
        then ret (json_status "error"
                    (Lit ("'" ++ filename ++ "' is not a valid file.")) 400) st
        else
          try_except
            (run os_remove w video_path in
             ret (json_status "success"
                    (Lit ("Video file '" ++ filename ++ "' has been deleted successfully."))
                    200))
            (fun e => ret (json_status "error"
                             (WithExn "Failed to delete video file: " e) 500)) st
  end.

(** ** Reading a concat script back

    The concat demuxer shows every [file] entry for the time of the
    [duration] directive that follows it; the planned display time of a
    script is the sum of its [duration] directives. *)
Definition entry_duration (line : string) : Z :=
  if String.prefix "duration " line
  then default 0 (digits_val (substring 9 (String.length line - 9) line))
  else 0.

Definition planned_time (lines : list string) : Z :=
  fold_right Z.add 0 (map entry_duration lines).

(** The list [l] repeated [k] times, as the specification words it. *)
Definition repeated {A : Type} (k : nat) (l : list A) : list A :=
  concat (replicate k l).

(** A path lies inside a directory when it resolves to an entry below it. *)
Definition inside (dir : string) (key : list string) : Prop :=
  exists name rest, key = (resolve dir ++ name :: rest)%list.

(** ** Sample worlds

    One host that serves an audio file, an image of 3 by 5 pixels, a page
    that is no image, and replies 201, 204 and 404 on three other paths;
    [ffmpeg] prints [probe] and the encoder exits with [exit_status]. *)
Definition sample_http (url : string) : http_reply :=
  if String.eqb url "http://host/audio.mp3" then Reply 200 Blob true
  else if String.eqb url "http://host/odd.jpg" then Reply 200 (Img 3 5) true
  else if String.eqb url "http://host/page.html" then Reply 200 Blob true
  else if String.eqb url "http://host/created" then Reply 201 Blob true
  else if String.eqb url "http://host/empty" then Reply 204 Blob true
  else if String.eqb url "http://host/missing.jpg" then Reply 404 Blob true
  else if String.eqb url "http://host/cut.mp3" then Reply 200 Blob false
  else ConnectionFailed.

Definition sample_world (probe : string) (exit_status : Z) : world :=
  {| http_get := sample_http;
     uuid4 := fun n => "id" ++ pretty n;
     ffmpeg_probe := fun _ => probe;
     ffmpeg_encode := fun _ => exit_status;
     getcwd := "/srv/app";
     remove_denied := fun _ => false;
     normalize_NFKD := fun s => s;
     other_writer := fun _ _ => None;
     app_root := "";
     fits := fun _ width height => (width <? 2 ^ 31)%Z && (height <? 2 ^ 31)%Z;
     resavable := fun _ => true |}.

(** The folders made at start-up (lines 23-24), one earlier video and one
    file outside both folders. *)
Definition sample_state : state :=
  {| fs := {[ ["uploads"] := Dir;
              ["videos"] := Dir;
              ["videos"; "a.mp4"] := File Blob;
              ["secret.txt"] := File Blob ]};
     drawn := 0 |}.

Definition probe_ten_seconds : string :=
  "  Duration: 00:00:10.00, start: 0.000000, bitrate: 128 kb/s".

Definition probe_no_duration : string :=
  "uploads/id0.mp3: Invalid data found when processing input".

Definition probe_unknown_duration : string :=
  "  Duration: N/A, bitrate: N/A".

Definition probe_tagged : string :=
  "    title           : Duration" ++ String LF "  Duration: 00:01:30.50, start: 0.000000".

Definition probe_ninety : string :=
  "Input #0, mp3, from 'uploads/id0.mp3':" ++ String LF
  "  Duration: 00:01:30.50, start: 0.000000, bitrate: 128 kb/s".


Definition audio_only_request : convert_request :=
  {| audio_url := Some (JString "http://host/audio.mp3"); image_urls := Some (JItems []) |}.

Definition slideshow_request : convert_request :=
  {| audio_url := Some (JString "http://host/audio.mp3");
     image_urls := Some (JItems [UrlText "http://host/odd.jpg";
                                 UrlText "http://host/missing.jpg"]) |}.


(** A state with one stored image that has an alpha channel, under the
    extension [jpg]. *)
Definition alpha_image_state : state :=
  {| fs := {[ ["uploads"] := Dir; ["uploads"; "p.jpg"] := File (ImgAlpha 3 5) ]};
     drawn := 0 |}.

(** Every character of [s] satisfies [p]. *)
Definition all_chars (p : ascii -> bool) (s : string) : Prop :=
  Forall (fun c => p c = true) (list_ascii_of_string s).

(** ** The extension filter: [allowed_file] (lines 81-92) *)

Definition ALLOWED_EXTENSIONS : list string :=
  ["mp3"; "wav"; "jpg"; "png"; "jpeg"; "webp"].

(** ['.' in filename and filename.rsplit('.', 1)[1].lower() in
    ALLOWED_EXTENSIONS]; the right operand is evaluated only when the left
    one holds. *)
Definition allowed_file (filename : string) : result bool :=
  if py_in "." filename then
    match py_index (py_rsplit1 "." filename) 1 with
    | Ok extension => Ok (existsb (String.eqb (py_lower extension)) ALLOWED_EXTENSIONS)
    | Raise e => Raise e
    end
  else Ok false.

(** ** Exact-fit resize: [resize_image_exact] (lines 30-78) *)

(** [requests.get(image_url)], [response.raise_for_status()] and
    [response.content]: the whole body is read; a status code from 400 to
    599 raises [HTTPError]. *)
Definition requests_get_content (w : world) (url : string) : M content :=
  match http_get w url with
  | ConnectionFailed => raise RequestException
  | Reply status_code body complete =>
      if complete then
        if ((400 <=? status_code) && (status_code <? 600))%Z
        then raise RequestException
        else ret body
      else raise RequestException
  end.

(** [Image.open(BytesIO(content))] and [img.size]. *)
Definition image_open (c : content) : result (Z * Z) :=
  match image_size c with
  | Some size => Ok size
  | None => Raise OSError
  end.

(** [ImageOps.fit(img, new_size, ...)]: a centred crop scaled to exactly
    [new_size], in the kind of the source image; a size that is not
    positive is refused, and so is what the library cannot produce. *)
Definition image_fit (w : world) (img : content) (size new_size : Z * Z) : result content :=
  if ((0 <? fst size) && (0 <? snd size) && (0 <? fst new_size) && (0 <? snd new_size))%Z
     && fits w img (fst new_size) (snd new_size)
  then Ok (with_size img (fst new_size) (snd new_size))
  else Raise ValueError.

(** [save(output_filename, format=output_format)] with the format of the
    source image: a format without a writer raises before the file is
    opened. *)
Definition save_as_source (w : world) (image_url output_filename : string)
    (img : content) : M unit :=
  if resavable w image_url then write_file output_filename img
  else raise OSError.

Definition resize_image_exact (w : world) (image_url : string)
    (new_width new_height : Z) (output_filename : string) : M (option string) :=
  let* uuid := fresh_uuid w in
  let output_filename := uuid ++ "_" ++ output_filename in
  try_except
    (let* image_data := requests_get_content w image_url in
     match image_open image_data with
     | Raise e => raise e
     | Ok size =>
         let new_size := (new_width, new_height) in
         match image_fit w image_data size new_size with
         | Raise e => raise e
         | Ok cropped_and_resized_img =>
             run save_as_source w image_url output_filename cropped_and_resized_img in
             ret (Some output_filename)
         end
     end)
    (fun _ => ret None).

(** ** The resize route: the view function [resize_image()] (lines 348-378) *)

(** The query string after [request.args.get(..., type=...)]: [None] is a
    parameter that is missing or that the conversion rejects. *)
Record resize_args : Type := {
  arg_width : option Z;
  arg_height : option Z;
  arg_url : option string
}.

(** The view answers with a JSON error or with the stored file itself. *)
Inductive resize_reply : Type :=
  | ResizeJson (r : response)
  | ResizedFile (path : string).

(** Truth value of an optional integer: [None] and zero are false. *)
Definition truthy_int (n : option Z) : option Z :=
  match n with
  | Some k => if (k =? 0)%Z then None else Some k
  | None => None
  end.

(** [send_file(result)]: a relative path is looked up under the
    application's [root_path]. *)
Definition send_resized (w : world) (path : string) : M resize_reply :=
  fun st =>
    if path_isfile st (path_join (app_root w) path) then (Ok (ResizedFile path), st)
    else (Raise OSError, st).

Definition resize_image_view (w : world) (args : resize_args) : M resize_reply :=
  match truthy_int (arg_width args), truthy_int (arg_height args), truthy (arg_url args) with
  | Some width, Some height, Some url =>
      let* result := resize_image_exact w url width height "resized_exact.jpg" in
      match truthy result with
      | None => ret (ResizeJson (json_status "error" (Lit "Failed to resize image.") 500))
      | Some result => send_resized w result
      end
  | _, _, _ =>
      ret (ResizeJson (json_status "error" (Lit "Both width and height are required.") 400))
  end.


(** * Properties *)

(** * Sequence Planner *)

Lemma list_repeat_repeated {A : Type} (l : list A) (n : nat) :
  list_repeat l n = repeated n l.
Proof.
  unfold repeated. induction n as [|n IH]; simpl; [reflexivity|].
  now rewrite IH.
Qed.

Lemma length_list_repeat {A : Type} (l : list A) (n : nat) :
  length (list_repeat l n) = (n * length l)%nat.
Proof.
  induction n as [|n IH]; simpl; [reflexivity|].
  rewrite length_app, IH. reflexivity.
Qed.

Lemma py_len_list_mul {A : Type} (l : list A) (k : Z) :
  0 <= k -> py_len (py_list_mul l k) = py_len l * k.
Proof.
  intros Hk. unfold py_len, py_list_mul.
  rewrite length_list_repeat. lia.
Qed.

Lemma repeat_count_bounds (d : Q) :
  (inject_Z 3 * inject_Z (Qfloor (d / inject_Z 3)) <= d)%Q /\
  (d < inject_Z 3 * inject_Z (Qfloor (d / inject_Z 3) + 1))%Q.
Proof.
  pose proof (Qfloor_le (d / inject_Z 3)) as Hlo.
  pose proof (Qlt_floor (d / inject_Z 3)) as Hhi.
  assert (Hd : (d == inject_Z 3 * (d / inject_Z 3))%Q) by (field; discriminate).
  split.
  - rewrite Hd at 2. apply Qmult_le_l; [reflexivity | exact Hlo].
  - rewrite Hd at 1. apply Qmult_lt_l; [reflexivity | exact Hhi].
Qed.

Lemma repeat_count_positive (n : Z) (d : Q) :
  0 <= n -> (inject_Z (n * 3) < d)%Q -> 1 <= Qfloor (d / inject_Z 3) + 1.
Proof.
  intros Hn Hlt.
  destruct (repeat_count_bounds d) as [_ Hhi].
  assert (H0 : (inject_Z 0 < inject_Z (3 * (Qfloor (d / inject_Z 3) + 1)))%Q).
  { rewrite inject_Z_mult.
    apply Qle_lt_trans with (y := inject_Z (n * 3)).
    - rewrite <- Zle_Qle. lia.
    - eapply Qlt_trans; eassumption. }
  rewrite <- Zlt_Qlt in H0. lia.
Qed.

Lemma plan_images_repeat (l : list string) (d : Q) :
  (inject_Z (py_len l * 3) < d)%Q ->
  plan_images l d = py_list_mul l (Qfloor (d / inject_Z 3) + 1).
Proof.
  intros Hlt. unfold plan_images.
  destruct (Qlt_le_dec _ _) as [_|Hle].
  - unfold py_int, float_floordiv. now rewrite Qfloor_Z.
  - exfalso. exact (Qlt_not_le _ _ Hlt Hle).
Qed.

Lemma plan_images_keep (l : list string) (d : Q) :
  ~ (inject_Z (py_len l * 3) < d)%Q -> plan_images l d = l.
Proof.
  intros Hn. unfold plan_images.
  destruct (Qlt_le_dec _ _) as [Hlt|_]; [contradiction | reflexivity].
Qed.

Lemma plan_images_proper (l : list string) (d d' : Q) :
  (d == d')%Q -> plan_images l d = plan_images l d'.
Proof.
  intros Heq. unfold plan_images, py_int, float_floordiv.
  rewrite !Qfloor_Z.
  assert (Hf : Qfloor (d / inject_Z 3) = Qfloor (d' / inject_Z 3)) by now rewrite Heq.
  destruct (Qlt_le_dec _ d) as [H1|H1], (Qlt_le_dec _ d') as [H2|H2].
  - now rewrite Hf.
  - rewrite Heq in H1. exfalso. exact (Qlt_not_le _ _ H1 H2).
  - rewrite Heq in H1. exfalso. exact (Qlt_not_le _ _ H2 H1).
  - reflexivity.
Qed.

Lemma planned_time_sequence_lines (w : world) (l : list string) :
  planned_time (sequence_lines w l) = 3 * py_len l.
Proof.
  unfold planned_time, py_len.
  induction l as [|image l IH]; [reflexivity|].
  cbn [sequence_lines flat_map app map fold_right length].
  fold (sequence_lines w l). rewrite IH.
  change (entry_duration "duration 3") with 3.
  assert (Hfile : entry_duration ("file '" ++ abspath w image ++ "'") = 0) by reflexivity.
  rewrite Hfile. lia.
Qed.

(** C3 (Sequence Planner).  For an image list of length [n] and an audio
    duration [d]: when [n * 3 < d] the plan is the whole list repeated
    [floor(d / 3) + 1] times, [n * (floor(d / 3) + 1)] entries; otherwise
    the plan is the list itself, nothing cut off.  Two images and ten
    seconds plan eight entries, five images and ten seconds plan five. *)
Theorem plan_images_exact (image_paths : list string) (d : Q) :
  let n := py_len image_paths in
  let k := Qfloor (d / inject_Z 3) + 1 in
  ((inject_Z (n * 3) < d)%Q ->
     plan_images image_paths d = repeated (Z.to_nat k) image_paths /\
     py_len (plan_images image_paths d) = n * k)
  /\ (~ (inject_Z (n * 3) < d)%Q -> plan_images image_paths d = image_paths)
  /\ (n = 2 -> (d == 10)%Q -> py_len (plan_images image_paths d) = 8)
  /\ (n = 5 -> (d == 10)%Q -> py_len (plan_images image_paths d) = 5).
Proof.
  intros n k.
  assert (Hn0 : 0 <= n) by (unfold n, py_len; lia).
  split; [|split; [|split]].
  - intros Hlt. rewrite plan_images_repeat by exact Hlt. split.
    + apply list_repeat_repeated.
    + apply py_len_list_mul.
      pose proof (repeat_count_positive n d Hn0 Hlt). fold k. lia.
  - apply plan_images_keep.
  - intros Hn Hd. rewrite (plan_images_proper _ _ _ Hd).
    rewrite plan_images_repeat by (fold n; rewrite Hn; reflexivity).
    rewrite py_len_list_mul by (vm_compute; discriminate).
    fold n. rewrite Hn. reflexivity.
  - intros Hn Hd. rewrite (plan_images_proper _ _ _ Hd).
    rewrite plan_images_keep; [exact Hn|].
    fold n. rewrite Hn. vm_compute. intros H; discriminate H.
Qed.

Lemma plan_images_exact_witness :
  py_len (plan_images ["uploads/a.jpg"; "uploads/b.jpg"] 10) = 8 /\
  py_len (plan_images ["a"; "b"; "c"; "d"; "e"] 10) = 5.
Proof.
  split.
  - apply (plan_images_exact ["uploads/a.jpg"; "uploads/b.jpg"] 10); reflexivity.
  - apply (plan_images_exact ["a"; "b"; "c"; "d"; "e"] 10); reflexivity.
Defined.

(** C4 (invariant of the sequence plan).  For a non-empty image list the
    display time read back from the concat script, three seconds per
    entry of the final list, is at least the audio duration. *)
Theorem planned_time_covers_audio (w : world) (image_paths : list string) (d : Q) :
  image_paths <> [] ->
  (d <= inject_Z (planned_time (sequence_lines w (plan_images image_paths d))))%Q.
Proof.
  intros Hne. rewrite planned_time_sequence_lines.
  assert (Hn : 1 <= py_len image_paths).
  { destruct image_paths; [contradiction | unfold py_len; simpl length; lia]. }
  destruct (Qlt_le_dec (inject_Z (py_len image_paths * 3)) d) as [Hlt|Hle].
  - rewrite plan_images_repeat by exact Hlt.
    assert (Hk : 1 <= Qfloor (d / inject_Z 3) + 1)
      by (apply (repeat_count_positive (py_len image_paths)); [lia | exact Hlt]).
    rewrite py_len_list_mul by lia.
    destruct (repeat_count_bounds d) as [_ Hhi].
    apply Qlt_le_weak. eapply Qlt_le_trans; [exact Hhi|].
    rewrite <- inject_Z_mult, <- Zle_Qle.
    set (k := Qfloor (d / inject_Z 3) + 1) in *.
    nia.
  - rewrite plan_images_keep by (apply Qle_not_lt; exact Hle).
    eapply Qle_trans; [exact Hle|]. rewrite <- Zle_Qle. lia.
Qed.

Lemma planned_time_covers_audio_witness :
  (10 <= inject_Z (planned_time (sequence_lines (sample_world "" 0)
                     (plan_images ["uploads/a.jpg"; "uploads/b.jpg"] 10))))%Q.
Proof.
  apply (planned_time_covers_audio (sample_world "" 0) ["uploads/a.jpg"; "uploads/b.jpg"] 10).
  discriminate.
Defined.

(** C5 as worded fails: two images and ten seconds of audio are planned
    for 24 seconds, 14 seconds over the audio, more than [3 * 2 - 1]. *)
Lemma planned_excess_bound_fails :
  ~ (forall (w : world) (image_paths : list string) (d : Q),
       (inject_Z (planned_time (sequence_lines w (plan_images image_paths d))) - d
        <= inject_Z (3 * py_len image_paths - 1))%Q).
Proof.
  intros H.
  specialize (H (sample_world "" 0) ["uploads/a.jpg"; "uploads/b.jpg"] 10%Q).
  vm_compute in H. apply H. reflexivity.
Qed.

(** C5, amended.  For an image list of length [n] and an audio duration
    [d >= 0] the planned display time exceeds [d] by at most
    [3 * n + (n - 1) * d] seconds. *)
Theorem planned_excess_bound (w : world) (image_paths : list string) (d : Q) :
  (0 <= d)%Q ->
  (inject_Z (planned_time (sequence_lines w (plan_images image_paths d))) - d
   <= inject_Z (3 * py_len image_paths) + inject_Z (py_len image_paths - 1) * d)%Q.
Proof.
  intros Hd. rewrite planned_time_sequence_lines.
  set (n := py_len image_paths).
  assert (Hn : 0 <= n) by (unfold n, py_len; lia).
  assert (HnQ : (0 <= inject_Z n)%Q) by (change 0%Q with (inject_Z 0); now rewrite <- Zle_Qle).
  destruct (Qlt_le_dec (inject_Z (n * 3)) d) as [Hlt|Hle].
  - rewrite plan_images_repeat by exact Hlt.
    pose proof (repeat_count_positive _ d Hn Hlt) as Hk.
    rewrite py_len_list_mul by lia. fold n.
    destruct (repeat_count_bounds d) as [Hlo _].
    set (f := Qfloor (d / inject_Z 3)) in *.
    unfold Z.sub. repeat (rewrite inject_Z_mult || rewrite inject_Z_plus).
    change (inject_Z (- (1))) with (-1)%Q. change (inject_Z 1) with 1%Q.
    change (inject_Z 3) with 3%Q in *.
    assert (Hm : (inject_Z n * (3 * inject_Z f) <= inject_Z n * d)%Q)
      by (apply Qmult_le_l' || nra).
    nra.
  - rewrite plan_images_keep by (apply Qle_not_lt; exact Hle). fold n.
    unfold Z.sub. repeat (rewrite inject_Z_mult || rewrite inject_Z_plus).
    change (inject_Z (- (1))) with (-1)%Q. change (inject_Z 3) with 3%Q in *.
    rewrite inject_Z_mult in Hle. change (inject_Z 3) with 3%Q in Hle.
    nra.
Qed.

Lemma planned_excess_bound_witness :
  (inject_Z (planned_time (sequence_lines (sample_world "" 0)
               (plan_images ["uploads/a.jpg"; "uploads/b.jpg"] 9))) - 9
   <= inject_Z (3 * 2) + inject_Z (2 - 1) * 9)%Q.
Proof.
  apply (planned_excess_bound (sample_world "" 0) ["uploads/a.jpg"; "uploads/b.jpg"] 9).
  discriminate.
Defined.

(** * Duration Prober *)



Example get_audio_duration_ninety (st : state) :
  exists d, get_audio_duration (sample_world probe_ninety 0) "uploads/id0.mp3" st = (Ok d, st)
            /\ (d == 90.5)%Q.
Proof. eexists. split; [vm_compute; reflexivity | reflexivity]. Qed.

Example get_audio_duration_no_line (st : state) :
  get_audio_duration (sample_world probe_no_duration 0) "uploads/id0.mp3" st = (Ok 0%Q, st).
Proof. reflexivity. Qed.

(** C6 (Duration Prober), where the function leaves the claim.  On
    [Duration: N/A, bitrate: N/A], which has no [HH:MM:SS.fraction] marker,
    the prober raises [ValueError] where zero is due; and a line that
    merely contains the word [Duration] ahead of the marker line makes it
    raise [IndexError] where the marker line gives 90.5 seconds. *)
Theorem get_audio_duration_raises (st : state) :
  get_audio_duration (sample_world probe_unknown_duration 0) "uploads/id0.mp3" st
    = (Raise ValueError, st)
  /\ get_audio_duration (sample_world probe_tagged 0) "uploads/id0.mp3" st
    = (Raise IndexError, st).
Proof. split; reflexivity. Qed.

(** * Image Normalizer *)

Lemma stat_file_not_dir_path (st : state) (p : string) (c : content) :
  stat st p = Some (File c) -> wants_dir p = false /\ fs st !! resolve p = Some (File c).
Proof.
  unfold stat. destruct (fs st !! resolve p) as [[c'|]|]; try discriminate.
  destruct (wants_dir p); [discriminate|]. intros [= ->]. split; reflexivity.
Qed.






(** What the fixup does to that file: [save] has opened it for writing
    when the JPEG writer refuses the image, so the exception leaves an
    empty file where the image was. *)
Example resize_image_alpha_outcome :
  resize_image (sample_world "" 0) "uploads/p.jpg" alpha_image_state
  = (Raise OSError,
     {| fs := {[ ["uploads"] := Dir; ["uploads"; "p.jpg"] := File Blob ]}; drawn := 0 |}).
Proof. vm_compute. reflexivity. Qed.



(** * Asset Fetcher *)






(** C2, where the module leaves the claim.  When a request is served the
    name [resize_image] means the view function of line 350, so the call
    of line 174 raises [TypeError]: the download of a 3 by 5 image with
    status 200 under the extension [jpg] returns [None], and the file
    stays in the uploads folder with its odd width and height. *)
Theorem download_image_not_normalized :
  module_resize_image = Def_line_350 /\
  exists st',
    download_file module_resize_image (sample_world "" 0) "http://host/odd.jpg" "jpg"
      UPLOAD_FOLDER sample_state = (Ok None, st') /\
    stat st' "uploads/id0.jpg" = Some (File (Img 3 5)).
Proof. split; [reflexivity|]. eexists. split; reflexivity. Qed.

(** C1, where the handler leaves the claim.  A convert request whose audio
    downloads and whose image list is empty is answered 400 at line 219,
    before the [try] whose [finally] removes the files, and the audio file
    stays in the uploads folder; with one image URL the audio file and
    the image file both stay. *)
Theorem convert_leaves_audio_behind :
  (exists st',
     convert_to_video module_resize_image (sample_world probe_ten_seconds 0)
       audio_only_request sample_state
       = (Ok (json_error "No valid images downloaded." 400), st') /\
     stat sample_state "uploads/id0.mp3" = None /\
     stat st' "uploads/id0.mp3" = Some (File Blob))
  /\ (exists st',
        convert_to_video module_resize_image (sample_world probe_ten_seconds 0)
          slideshow_request sample_state
          = (Ok (json_error "No valid images downloaded." 400), st') /\
        stat sample_state "uploads/id0.mp3" = None /\
        stat sample_state "uploads/id1.jpg" = None /\
        stat st' "uploads/id0.mp3" = Some (File Blob) /\
        stat st' "uploads/id1.jpg" = Some (File (Img 3 5))).
Proof.
  split; eexists; repeat split; reflexivity.
Qed.

(** * The convert route *)


(** * Strings *)

(** One unfolding of string concatenation, wherever its left operand starts
    with a known character or is empty. *)
Ltac push_append :=
  repeat match goal with
         | |- context [String ?c ?a ++ ?b] =>
             change (String c a ++ b) with (String c (a ++ b))
         | |- context [EmptyString ++ ?b] =>
             change (EmptyString ++ b) with b
         end.

Lemma string_app_empty_r (s : string) : s ++ "" = s.
Proof. induction s as [|c s IH]; push_append; [reflexivity | now rewrite IH]. Qed.

Lemma string_app_snoc (a : string) (c : ascii) (b : string) :
  (a ++ String c "") ++ b = a ++ String c b.
Proof. induction a as [|d a IH]; push_append; [reflexivity | now rewrite IH]. Qed.

Lemma list_ascii_of_string_app (a b : string) :
  list_ascii_of_string (a ++ b) = (list_ascii_of_string a ++ list_ascii_of_string b)%list.
Proof. induction a as [|c a IH]; simpl; [reflexivity | now rewrite IH]. Qed.

Lemma string_of_list_ascii_app (l m : list ascii) :
  string_of_list_ascii (l ++ m) = string_of_list_ascii l ++ string_of_list_ascii m.
Proof. induction l as [|c l IH]; simpl; [reflexivity | now rewrite IH]. Qed.

Lemma string_rev_involutive (s : string) : string_rev (string_rev s) = s.
Proof.
  unfold string_rev. rewrite list_ascii_of_string_of_list_ascii, rev_involutive.
  apply string_of_list_ascii_of_string.
Qed.

Lemma string_rev_app (a b : string) :
  string_rev (a ++ b) = string_rev b ++ string_rev a.
Proof.
  unfold string_rev.
  now rewrite list_ascii_of_string_app, rev_app_distr, string_of_list_ascii_app.
Qed.

Lemma all_chars_rev (p : ascii -> bool) (s : string) :
  all_chars p s -> all_chars p (string_rev s).
Proof.
  unfold all_chars, string_rev. rewrite list_ascii_of_string_of_list_ascii.
  apply Forall_rev.
Qed.

Lemma all_chars_filter (p : ascii -> bool) (s : string) :
  all_chars p (string_filter p s).
Proof.
  unfold all_chars. induction s as [|c s IH]; simpl; [constructor|].
  destruct (p c) eqn:Hc; [|exact IH]. simpl. constructor; assumption.
Qed.

(** [lstrip_by] drops a prefix and stops at a character that [p] rejects. *)
Lemma lstrip_by_spec (p : ascii -> bool) (s : string) :
  exists dropped : string,
    s = dropped ++ lstrip_by p s /\
    match lstrip_by p s with
    | EmptyString => True
    | String c _ => p c = false
    end.
Proof.
  induction s as [|c s (dropped & Heq & Hhead)]; simpl.
  - exists "". split; [reflexivity | exact I].
  - destruct (p c) eqn:Hc.
    + exists (String c dropped). split; [push_append; f_equal; exact Heq | exact Hhead].
    + exists "". split; [reflexivity | exact Hc].
Qed.

Lemma all_chars_lstrip (p q : ascii -> bool) (s : string) :
  all_chars p s -> all_chars p (lstrip_by q s).
Proof.
  unfold all_chars. induction s as [|c s IH]; simpl; intros H; [exact H|].
  destruct (q c); [|exact H]. apply IH. now inversion H.
Qed.

Lemma all_chars_strip (p q : ascii -> bool) (s : string) :
  all_chars p s -> all_chars p (strip_by q s).
Proof.
  intros H. unfold strip_by.
  apply all_chars_rev, all_chars_lstrip, all_chars_rev, all_chars_lstrip, H.
Qed.

(** What [strip_by] returns does not start with a stripped character. *)
Lemma strip_by_head (p : ascii -> bool) (s : string) :
  match strip_by p s with
  | EmptyString => True
  | String c _ => p c = false
  end.
Proof.
  unfold strip_by.
  destruct (lstrip_by_spec p s) as (_ & _ & Hhead).
  set (u := lstrip_by p s) in *.
  destruct (lstrip_by_spec p (string_rev u)) as (dropped & Heq & _).
  set (t := lstrip_by p (string_rev u)) in *.
  assert (Hu : u = string_rev t ++ string_rev dropped).
  { rewrite <- string_rev_app, <- Heq. symmetry. apply string_rev_involutive. }
  destruct (string_rev t) as [|c rest]; [exact I|].
  rewrite Hu in Hhead. exact Hhead.
Qed.

Lemma split_go_no_separator (c0 : ascii) (s : string) (cur : list ascii) :
  all_chars (fun c => negb (Ascii.eqb c c0)) s ->
  split_go (String c0 "") s O cur = [string_of_list_ascii (rev cur) ++ s].
Proof.
  unfold all_chars. revert cur. induction s as [|c s IH]; intros cur H; simpl.
  - now rewrite string_app_empty_r.
  - inversion H as [|? ? Hc Hs]; subst.
    apply negb_true_iff, Ascii.eqb_neq in Hc.
    destruct (ascii_dec c0 c) as [->|_]; [contradiction|].
    rewrite IH by exact Hs. simpl.
    rewrite string_of_list_ascii_app. simpl.
    now rewrite string_app_snoc.
Qed.

(** * [secure_filename] *)

Lemma secure_filename_chars (w : world) (requested : string) :
  all_chars is_filename_char (secure_filename w requested).
Proof.
  unfold secure_filename, py_strip_chars.
  apply all_chars_strip, all_chars_filter.
Qed.

Lemma secure_filename_head (w : world) (requested : string) :
  match secure_filename w requested with
  | EmptyString => True
  | String c _ => c <> "."%char /\ c <> "/"%char
  end.
Proof.
  pose proof (secure_filename_chars w requested) as Hchars.
  unfold secure_filename, py_strip_chars in *.
  match goal with |- match strip_by ?p ?s with _ => _ end =>
    pose proof (strip_by_head p s) as Hhead; destruct (strip_by p s) as [|c rest] end;
    [exact I|].
  inversion Hchars as [|? ? Hc _]; subst.
  split; intros ->; [discriminate Hhead | discriminate Hc].
Qed.

Lemma secure_filename_no_slash (w : world) (requested : string) :
  all_chars (fun c => negb (Ascii.eqb c "/")) (secure_filename w requested).
Proof.
  pose proof (secure_filename_chars w requested) as H.
  unfold all_chars in *. eapply Forall_impl; [exact H|].
  intros c Hc. cbv beta in Hc.
  destruct (Ascii.eqb_spec c "/") as [->|_]; [vm_compute in Hc; discriminate Hc | reflexivity].
Qed.

(** The path that [delete_video] builds and where it resolves. *)
Lemma prefix_char (c0 c : ascii) (s : string) :
  String.prefix (String c0 "") (String c s) = Ascii.eqb c0 c.
Proof.
  cbn [String.prefix]. destruct (ascii_dec c0 c) as [->|Hne].
  - rewrite Ascii.eqb_refl. now destruct s.
  - symmetry. now apply Ascii.eqb_neq.
Qed.

Lemma split_go_through (c0 : ascii) (a b : string) (cur : list ascii) :
  all_chars (fun c => negb (Ascii.eqb c c0)) a ->
  split_go (String c0 "") (a ++ String c0 b) O cur
    = (string_of_list_ascii (rev cur) ++ a) :: split_go (String c0 "") b O [].
Proof.
  unfold all_chars. revert cur. induction a as [|c a IH]; intros cur H; push_append.
  - cbn [split_go]. rewrite prefix_char, Ascii.eqb_refl, string_app_empty_r. reflexivity.
  - inversion H as [|? ? Hc Ha]; subst.
    apply negb_true_iff in Hc. rewrite Ascii.eqb_sym in Hc.
    cbn [split_go]. rewrite prefix_char, Hc. rewrite IH by exact Ha.
    cbn [rev]. rewrite string_of_list_ascii_app. cbn [string_of_list_ascii].
    now rewrite string_app_snoc.
Qed.

Lemma video_path_resolves (name : string) :
  all_chars (fun c => negb (Ascii.eqb c "/")) name ->
  match name with
  | EmptyString => True
  | String c _ => c <> "."%char /\ c <> "/"%char
  end ->
  path_join VIDEO_FOLDER name = "videos/" ++ name /\
  resolve (path_join VIDEO_FOLDER name)
    = if String.eqb name "" then [VIDEO_FOLDER] else [VIDEO_FOLDER; name].
Proof.
  intros Hslash Hhead.
  assert (Hjoin : path_join VIDEO_FOLDER name = "videos/" ++ name).
  { unfold path_join. destruct name as [|c rest]; [reflexivity|].
    destruct Hhead as [_ Hc]. rewrite prefix_char.
    assert (Hf : Ascii.eqb "/" c = false) by (apply Ascii.eqb_neq; congruence).
    rewrite Hf. reflexivity. }
  split; [exact Hjoin|]. rewrite Hjoin. unfold resolve.
  change ("videos/" ++ name) with ("videos" ++ String "/" name).
  unfold py_split. rewrite split_go_through by (repeat constructor).
  rewrite split_go_no_separator by exact Hslash.
  change (String.prefix "/" ("videos" ++ String "/" name)) with false.
  cbv iota. cbn [rev string_of_list_ascii]. push_append.
  cbn [resolve_go]. change (String.eqb "videos" "") with false.
  change (String.eqb "videos" ".") with false. change (String.eqb "videos" "..") with false.
  cbn [orb]. cbv iota.
  destruct name as [|c rest]; [reflexivity|].
  destruct Hhead as [Hdot _].
  assert (Hn1 : String.eqb (String c rest) "." = false).
  { apply String.eqb_neq. intros [= -> _]. contradiction. }
  assert (Hn2 : String.eqb (String c rest) ".." = false).
  { apply String.eqb_neq. intros [= -> _]. contradiction. }
  change (String.eqb (String c rest) "") with false.
  rewrite Hn1, Hn2. reflexivity.
Qed.

(** * The delete route *)

(** C9 as worded fails in its status part: the filename [../a.mp4] is
    sanitized to [a.mp4], the video of that name in the output folder is
    removed and the answer is 200, neither 400 nor 404. *)
Lemma delete_traversal_status_fails :
  ~ (forall (w : world) (requested : string) (st : state) (r : response) (st' : state),
       py_in "../" requested = true ->
       delete_video w {| filename := Some requested |} st = (Ok r, st') ->
       resp_status r = 400 \/ resp_status r = 404).
Proof.
  intros H.
  edestruct (H (sample_world "" 0) "../a.mp4" sample_state) as [Hs|Hs];
    [reflexivity | vm_compute; reflexivity | discriminate Hs | discriminate Hs].
Qed.

(** C9, amended.  Whatever the filename, with [../] segments or without,
    the sanitized path resolves to the output folder itself or to an entry
    directly inside it; no path outside the output folder changes; and the
    answer is 404 (nothing at the sanitized path), 400 (something there
    that is no regular file), 500 (removal refused), each leaving all files
    as they were, or 200 after removing exactly the regular file of the
    sanitized name inside the output folder. *)
Theorem delete_video_confined (w : world) (requested : string) (st : state) :
  let name := secure_filename w requested in
  let video_path := path_join VIDEO_FOLDER name in
  (resolve video_path = [VIDEO_FOLDER] \/
   resolve video_path = [VIDEO_FOLDER; name] /\ inside VIDEO_FOLDER (resolve video_path))
  /\ exists (r : response) (st' : state),
       delete_video w {| filename := Some requested |} st = (Ok r, st') /\
       (forall key : list string,
          ~ inside VIDEO_FOLDER key -> fs st' !! key = fs st !! key) /\
       ((resp_status r = 404 /\ st' = st /\ path_exists st video_path = false)
        \/ (resp_status r = 400 /\ st' = st /\ path_exists st video_path = true /\
            path_isfile st video_path = false)
        \/ (resp_status r = 500 /\ st' = st /\ path_isfile st video_path = true /\
            remove_denied w (resolve video_path) = true)
        \/ (resp_status r = 200 /\
            exists c : content,
              fs st !! [VIDEO_FOLDER; name] = Some (File c) /\
              st' = set_fs (delete [VIDEO_FOLDER; name]) st)).
Proof.
  intros name video_path.
  destruct (video_path_resolves name (secure_filename_no_slash w requested)
              (secure_filename_head w requested)) as [Hjoin Hres].
  fold video_path in Hjoin, Hres.
  split.
  - rewrite Hres. destruct (String.eqb name ""); [left; reflexivity | right].
    split; [reflexivity|]. exists name, []. reflexivity.
  - unfold delete_video. cbn [filename]. fold name. fold video_path.
    destruct (path_exists st video_path) eqn:Hex; cbn [negb].
    2:{ eexists _, _. split; [reflexivity|]. split; [reflexivity|]. left. auto. }
    destruct (path_isfile st video_path) eqn:Hfile; cbn [negb].
    2:{ eexists _, _. split; [reflexivity|]. split; [reflexivity|]. right; left. auto. }
    unfold try_except, bind, os_remove.
    unfold path_isfile in Hfile.
    destruct (stat st video_path) as [[c|]|] eqn:Hstat; try discriminate Hfile.
    destruct (remove_denied w (resolve video_path)) eqn:Hden.
    { eexists _, _. split; [reflexivity|]. split; [reflexivity|]. right; right; left.
      auto. }
    destruct (stat_file_not_dir_path _ _ _ Hstat) as [Hdir Hlook].
    assert (Hkey : resolve video_path = [VIDEO_FOLDER; name]).
    { rewrite Hres. destruct (String.eqb_spec name "") as [Hempty|_]; [|reflexivity].
      rewrite Hjoin, Hempty in Hdir. discriminate Hdir. }
    rewrite Hkey in *.
    eexists _, _. split; [reflexivity|]. split.
    + intros key Hout. cbn [set_fs fs]. apply lookup_delete_ne.
      intros <-. apply Hout. exists name, []. reflexivity.
    + right; right; right. split; [reflexivity|]. exists c. split; [exact Hlook | reflexivity].
Qed.

(** * Further properties of the module *)

(** ** More string facts *)

Lemma string_rev_snoc (s : string) (c : ascii) :
  string_rev (s ++ String c "") = String c (string_rev s).
Proof.
  unfold string_rev. rewrite list_ascii_of_string_app, rev_app_distr. reflexivity.
Qed.

Lemma string_app_assoc (a b c : string) : (a ++ b) ++ c = a ++ (b ++ c).
Proof.
  induction a as [|d a IH]; push_append; [reflexivity | now rewrite IH].
Qed.


Lemma all_chars_cons (p : ascii -> bool) (c : ascii) (s : string) :
  all_chars p (String c s) <-> p c = true /\ all_chars p s.
Proof.
  unfold all_chars. cbn [list_ascii_of_string].
  split; [intros H; inversion H; auto | intros [? ?]; constructor; auto].
Qed.

Lemma string_rev_cons (c : ascii) (s : string) :
  string_rev (String c s) = string_rev s ++ String c "".
Proof.
  change (String c s) with (String c "" ++ s). rewrite string_rev_app. reflexivity.
Qed.


(** * More on the Asset Fetcher *)

(** What one download can do to the state: nothing; one identifier drawn
    and nothing written (the file could not be opened); or one identifier
    drawn and one file written at the generated path. *)
Lemma download_file_cases (bound : resize_image_def) (w : world)
    (url extension folder : string) (st st' : state) (r : option string) :
  download_file bound w url extension folder st = (Ok r, st') ->
  let file_path := path_join folder (uuid4 w (drawn st) ++ "." ++ extension) in
  (st' = st /\ r = None) \/
  (st' = {| fs := fs st; drawn := S (drawn st) |} /\ r = None) \/
  (exists c : content,
      st' = {| fs := <[resolve file_path := File c]> (fs st); drawn := S (drawn st) |} /\
      (r = None \/ r = Some file_path)).
Proof.
  intros Hd file_path.
  unfold download_file, try_except, download_file_try in Hd.
  destruct (http_get w url) as [|code body complete].
  { cbn in Hd. inversion Hd. left. auto. }
  destruct (code =? 200)%Z.
  2:{ cbn in Hd. inversion Hd. left. auto. }
  unfold bind, fresh_uuid, stream_to_file in Hd. fold file_path in Hd.
  right.
  set (st1 := {| fs := fs st; drawn := S (drawn st) |}) in *.
  assert (Hstat : forall c0 : content,
             stat (set_fs (insert (resolve file_path) (File c0)) st1) file_path
             = if wants_dir file_path then None else Some (File c0)).
  { intros c0. unfold stat, set_fs. cbn [fs]. now rewrite lookup_insert_eq. }
  assert (Hopen : forall c0 : content,
             wants_dir file_path = false ->
             can_open (set_fs (insert (resolve file_path) (File c0)) st1) file_path = true).
  { intros c0 Hdir. unfold can_open, set_fs. cbn [fs].
    now rewrite Hdir, lookup_insert_eq. }
  destruct complete.
  2:{ unfold bind, write_file, raise in Hd.
      destruct (can_open st1 file_path); cbn in Hd; inversion Hd;
        [right; exists Blob; auto | left; auto]. }
  unfold write_file at 1 in Hd.
  destruct (can_open st1 file_path) eqn:Hcan.
  2:{ cbn in Hd. inversion Hd. left. auto. }
  assert (Hdir : wants_dir file_path = false).
  { unfold can_open in Hcan. destruct (wants_dir file_path); [discriminate | reflexivity]. }
  right. cbv beta iota in Hd.
  destruct (is_image_extension extension).
  - destruct bound; cbn [call_resize_image] in Hd.
    + unfold resize_image in Hd. rewrite Hstat, Hdir in Hd.
      destruct (image_size body) as [[iw ih]|];
        [|cbn in Hd; inversion Hd; eauto].
      cbv zeta in Hd.
      destruct (writer_takes w file_path _) as [[]|];
        unfold bind, write_file, raise in Hd; rewrite ?Hopen in Hd by exact Hdir;
        cbn in Hd; inversion Hd; unfold st1, set_fs; cbn [fs drawn];
        rewrite ?insert_insert_eq; eauto.
    + cbn in Hd. inversion Hd. eauto.
  - cbn in Hd. inversion Hd. eauto.
Qed.

(** X1 ([download_file]).  Whatever a download returns, it changes no path
    but [folder/<uuid>.<extension>], keeps every file that was there,
    draws at most one identifier, and a path it returns is that one. *)
Theorem download_file_frame (bound : resize_image_def) (w : world)
    (url extension folder : string) (st st' : state) (r : option string) :
  download_file bound w url extension folder st = (Ok r, st') ->
  let file_path := path_join folder (uuid4 w (drawn st) ++ "." ++ extension) in
  (forall key : list string, key <> resolve file_path -> fs st' !! key = fs st !! key)
  /\ (forall (key : list string) (c : content),
        fs st !! key = Some (File c) -> exists c', fs st' !! key = Some (File c'))
  /\ (drawn st <= drawn st' <= S (drawn st))%nat
  /\ (forall p : string, r = Some p -> p = file_path).
Proof.
  intros Hd file_path.
  destruct (download_file_cases _ _ _ _ _ _ _ _ Hd) as [[-> ->]|[[-> ->]|(c0 & -> & Hr)]];
    [| |fold file_path in Hr |- *].
  - repeat split; try lia; [eauto | discriminate].
  - cbn [fs drawn]. repeat split; try lia; [eauto | discriminate].
  - cbn [fs drawn]. split; [|split; [|split]].
    + intros key Hkey. now rewrite lookup_insert_ne.
    + intros key c Hc. destruct (decide (resolve file_path = key)) as [<-|Hne].
      * rewrite lookup_insert_eq. eauto.
      * rewrite lookup_insert_ne by exact Hne. eauto.
    + lia.
    + intros p ->. destruct Hr as [Hr|Hr]; [discriminate | now inversion Hr].
Qed.

Lemma download_file_frame_witness :
  let st' := {| fs := <[ ["uploads"; "id0.mp3"] := File Blob ]> (fs sample_state);
                drawn := 1 |} in
  (forall key : list string,
      key <> resolve (path_join UPLOAD_FOLDER (uuid4 (sample_world "" 0) 0 ++ "." ++ "mp3")) ->
      fs st' !! key = fs sample_state !! key)
  /\ (forall (key : list string) (c : content),
        fs sample_state !! key = Some (File c) -> exists c', fs st' !! key = Some (File c'))
  /\ (0 <= 1 <= 1)%nat
  /\ (forall p : string, Some "uploads/id0.mp3" = Some p ->
        p = path_join UPLOAD_FOLDER (uuid4 (sample_world "" 0) 0 ++ "." ++ "mp3")).
Proof.
  apply (download_file_frame module_resize_image (sample_world "" 0)
           "http://host/audio.mp3" "mp3" UPLOAD_FOLDER sample_state).
  reflexivity.
Defined.

(** Whether a file can be opened depends on the files alone. *)
Lemma can_open_drawn (st : state) (n : nat) (p : string) :
  can_open {| fs := fs st; drawn := n |} p = can_open st p.
Proof. reflexivity. Qed.



(** * The convert route under the module's binding *)










(** * A successful delete *)

(** A non-empty text without slashes does not end in one. *)
Lemma wants_dir_no_slash (prefix name : string) :
  name <> "" ->
  all_chars (fun c => negb (Ascii.eqb c "/")) name ->
  wants_dir (prefix ++ name) = false.
Proof.
  intros Hne Hslash. unfold wants_dir. rewrite string_rev_app.
  apply all_chars_rev in Hslash.
  destruct (string_rev name) as [|c r] eqn:Hrev.
  - exfalso. apply Hne. rewrite <- (string_rev_involutive name), Hrev. reflexivity.
  - apply all_chars_cons in Hslash as [Hc _]. apply negb_true_iff in Hc.
    push_append. rewrite prefix_char, Ascii.eqb_sym. exact Hc.
Qed.

(** X13 ([delete_video]).  When the sanitized name is not empty, names a
    regular file of the output folder and the removal is not refused, the
    delete route removes exactly that file and answers 200. *)
Theorem delete_video_removes (w : world) (requested : string) (st : state) (c : content) :
  let name := secure_filename w requested in
  name <> "" ->
  fs st !! [VIDEO_FOLDER; name] = Some (File c) ->
  remove_denied w [VIDEO_FOLDER; name] = false ->
  delete_video w {| filename := Some requested |} st
  = (Ok (json_status "success"
           (Lit ("Video file '" ++ name ++ "' has been deleted successfully.")) 200),
     set_fs (delete [VIDEO_FOLDER; name]) st).
Proof.
  intros name Hne Hfile Hallowed.
  destruct (video_path_resolves name (secure_filename_no_slash w requested)
              (secure_filename_head w requested)) as [Hjoin Hres].
  assert (Hkey : resolve (path_join VIDEO_FOLDER name) = [VIDEO_FOLDER; name]).
  { rewrite Hres. destruct (String.eqb_spec name ""); [contradiction | reflexivity]. }
  assert (Hstat : stat st (path_join VIDEO_FOLDER name) = Some (File c)).
  { unfold stat. rewrite Hkey, Hfile, Hjoin.
    now rewrite (wants_dir_no_slash "videos/" name Hne (secure_filename_no_slash w requested)). }
  unfold delete_video. cbn [filename]. fold name.
  unfold path_exists, path_isfile. rewrite Hstat. cbn [negb].
  unfold try_except, bind, os_remove. rewrite Hstat, Hkey, Hallowed. reflexivity.
Qed.

Lemma delete_video_removes_witness :
  delete_video (sample_world "" 0) {| filename := Some "../a.mp4" |} sample_state
  = (Ok (json_status "success"
           (Lit ("Video file '" ++ secure_filename (sample_world "" 0) "../a.mp4"
                 ++ "' has been deleted successfully.")) 200),
     set_fs (delete [VIDEO_FOLDER; secure_filename (sample_world "" 0) "../a.mp4"])
       sample_state).
Proof.
  apply (delete_video_removes (sample_world "" 0) "../a.mp4" sample_state Blob);
    [discriminate | reflexivity | reflexivity].
Defined.

(** * Download and removal *)



(** * The cleanup block *)

Lemma os_remove_cases (w : world) (p : string) (st : state) :
  (os_remove w p st = (Raise OSError, st)
   /\ (stat st p = None \/ stat st p = Some Dir \/ remove_denied w (resolve p) = true))
  \/ (os_remove w p st = (Ok tt, set_fs (delete (resolve p)) st)
      /\ exists c, stat st p = Some (File c)).
Proof.
  unfold os_remove. destruct (stat st p) as [[c|]|]; auto.
  destruct (remove_denied w (resolve p)); [left | right]; eauto.
Qed.

Lemma stat_delete_same (st : state) (p : string) :
  stat (set_fs (delete (resolve p)) st) p = None.
Proof. unfold stat, set_fs. cbn [fs]. now rewrite lookup_delete_eq. Qed.

(** A path that is absent stays absent when files are only removed. *)
Lemma stat_absent_mono (st st' : state) (p : string) :
  fs st' ⊆ fs st -> stat st p = None -> stat st' p = None.
Proof.
  intros Hsub Habs. unfold stat in *.
  destruct (fs st' !! resolve p) as [n|] eqn:Hn; [|reflexivity].
  rewrite (lookup_weaken _ _ _ _ Hn Hsub) in Habs. exact Habs.
Qed.

Lemma delete_subseteq_state (st : state) (key : list string) :
  fs (set_fs (delete key) st) ⊆ fs st.
Proof. cbn [set_fs fs]. apply delete_subseteq. Qed.

(** One guarded removal, the body of the loop of lines 283-285. *)
Lemma guarded_remove_spec (w : world) (p : string) (st st' : state) (r : result unit) :
  (if path_exists st p then os_remove w p st else ret tt st) = (r, st') ->
  fs st' ⊆ fs st /\ drawn st' = drawn st /\ (r = Ok tt -> stat st' p = None).
Proof.
  unfold path_exists.
  destruct (stat st p) as [n|] eqn:Hstat.
  - destruct (os_remove_cases w p st) as [[-> _]|[-> _]]; intros [= <- <-].
    + split; [reflexivity|]. split; [reflexivity | discriminate].
    + split; [apply delete_subseteq_state|]. split; [reflexivity|].
      intros _. apply stat_delete_same.
  - intros [= <- <-]. split; [reflexivity|]. split; [reflexivity|]. intros _. exact Hstat.
Qed.

Lemma remove_images_spec (w : world) (image_paths : list string) (st st' : state)
    (r : result unit) :
  remove_images w image_paths st = (r, st') ->
  fs st' ⊆ fs st /\ drawn st' = drawn st
  /\ (r = Ok tt -> Forall (fun p => stat st' p = None) image_paths).
Proof.
  revert st. induction image_paths as [|p rest IH]; intros st.
  - intros [= <- <-]. split; [reflexivity|]. split; [reflexivity|]. intros _. constructor.
  - cbn [remove_images]. unfold bind at 1.
    destruct (if path_exists st p then os_remove w p st else ret tt st)
      as [[[]|e] st1] eqn:Hfirst;
      destruct (guarded_remove_spec _ _ _ _ _ Hfirst) as (Hsub1 & Hdrawn1 & Hgone1).
    + intros Hrest. destruct (IH _ Hrest) as (Hsub2 & Hdrawn2 & Hgone2).
      split; [etrans; eassumption|]. split; [congruence|].
      intros Hr. constructor; [|auto].
      eapply stat_absent_mono; [exact Hsub2 | auto].
    + intros [= <- <-]. split; [exact Hsub1|]. split; [exact Hdrawn1 | discriminate].
Qed.

(** X6 (the [finally] block).  It only removes files, whatever its
    outcome; when it runs to its end, none of the audio file, the image
    files and the sequence file exists any more. *)
Theorem cleanup_removes (w : world) (audio_path : string) (image_paths : list string)
    (img_sequence_file : string) (st st' : state) (r : result unit) :
  cleanup w audio_path image_paths img_sequence_file st = (r, st') ->
  fs st' ⊆ fs st /\ drawn st' = drawn st
  /\ (r = Ok tt ->
      path_exists st' audio_path = false
      /\ Forall (fun p => path_exists st' p = false) image_paths
      /\ path_exists st' img_sequence_file = false).
Proof.
  unfold cleanup. unfold bind at 1.
  destruct (os_remove_cases w audio_path st) as [[-> _]|[-> _]].
  { intros [= <- <-]. split; [reflexivity|]. split; [reflexivity | discriminate]. }
  set (st1 := set_fs (delete (resolve audio_path)) st).
  assert (Hsub1 : fs st1 ⊆ fs st) by apply delete_subseteq_state.
  assert (Hgone1 : stat st1 audio_path = None) by apply stat_delete_same.
  unfold bind at 1.
  destruct (remove_images w image_paths st1) as [[[]|e] st2] eqn:Himgs;
    destruct (remove_images_spec _ _ _ _ _ Himgs) as (Hsub2 & Hdrawn2 & Hgone2).
  2:{ intros [= <- <-]. split; [etrans; eassumption|]. split; [exact Hdrawn2 | discriminate]. }
  intros Hseq. destruct (guarded_remove_spec _ _ _ _ _ Hseq) as (Hsub3 & Hdrawn3 & Hgone3).
  split; [etrans; [exact Hsub3 | etrans; eassumption]|].
  split; [rewrite Hdrawn3, Hdrawn2; reflexivity|].
  intros Hr. unfold path_exists. split; [|split].
  - rewrite (stat_absent_mono st1 st' audio_path); [reflexivity | etrans; eassumption | exact Hgone1].
  - specialize (Hgone2 eq_refl). eapply Forall_impl; [exact Hgone2|].
    intros p Hp. cbv beta in Hp. now rewrite (stat_absent_mono st2 st' p Hsub3 Hp).
  - now rewrite (Hgone3 Hr).
Qed.

Lemma cleanup_removes_witness :
  let w := sample_world "" 0 in
  let st := {| fs := {[ ["uploads"] := Dir;
                        ["uploads"; "a.mp3"] := File Blob;
                        ["uploads"; "b.jpg"] := File (Img 4 6);
                        ["uploads"; "s.txt"] := File (Text []) ]};
               drawn := 3 |} in
  let st' := {| fs := {[ ["uploads"] := Dir ]}; drawn := 3 |} in
  fs st' ⊆ fs st /\ drawn st' = drawn st
  /\ (Ok tt = Ok tt ->
      path_exists st' "uploads/a.mp3" = false
      /\ Forall (fun p => path_exists st' p = false) ["uploads/b.jpg"; "uploads/b.jpg"]
      /\ path_exists st' "uploads/s.txt" = false).
Proof.
  intros w st st'.
  apply (cleanup_removes w "uploads/a.mp3" ["uploads/b.jpg"; "uploads/b.jpg"]
           "uploads/s.txt" st st' (Ok tt)).
  vm_compute. reflexivity.
Defined.

(** X7 (the [finally] block).  Line 282 removes the audio file without
    asking whether it exists: when no regular file is at the audio path,
    or the removal is refused, the block raises at once and removes
    nothing, the image files and the sequence file included. *)
Theorem cleanup_stops_at_audio (w : world) (audio_path : string)
    (image_paths : list string) (img_sequence_file : string) (st : state) :
  (forall c : content, stat st audio_path <> Some (File c))
  \/ remove_denied w (resolve audio_path) = true ->
  cleanup w audio_path image_paths img_sequence_file st = (Raise OSError, st).
Proof.
  intros Hbad. unfold cleanup. unfold bind at 1.
  destruct (os_remove_cases w audio_path st) as [[-> _]|[Hok [c Hc]]]; [reflexivity|].
  exfalso. destruct Hbad as [Hno|Hden]; [exact (Hno c Hc)|].
  unfold os_remove in Hok. rewrite Hc, Hden in Hok. discriminate Hok.
Qed.

Lemma cleanup_stops_at_audio_witness :
  cleanup (sample_world "" 0) "uploads/gone.mp3" ["videos/a.mp4"] "secret.txt" sample_state
  = (Raise OSError, sample_state).
Proof.
  apply (cleanup_stops_at_audio (sample_world "" 0) "uploads/gone.mp3" ["videos/a.mp4"]
           "secret.txt" sample_state).
  left. intros c. discriminate.
Defined.

(** * Repetition and the removal loop *)

Lemma remove_images_app (w : world) (a b : list string) (st : state) :
  remove_images w (a ++ b) st
  = match remove_images w a st with
    | (Ok _, st1) => remove_images w b st1
    | (Raise e, st1) => (Raise e, st1)
    end.
Proof.
  revert st. induction a as [|p a IH]; intros st; [reflexivity|].
  cbn [app remove_images]. unfold bind.
  destruct (if path_exists st p then os_remove w p st else ret tt st) as [[[]|e] st1];
    [apply IH | reflexivity].
Qed.

Lemma remove_images_absent (w : world) (l : list string) (st : state) :
  Forall (fun p => stat st p = None) l -> remove_images w l st = (Ok tt, st).
Proof.
  induction 1 as [|p l Hp _ IH]; [reflexivity|].
  cbn [remove_images]. unfold bind at 1, path_exists. rewrite Hp. exact IH.
Qed.

Lemma Forall_list_repeat {A : Type} (P : A -> Prop) (l : list A) (k : nat) :
  Forall P l -> Forall P (list_repeat l k).
Proof.
  intros H. induction k as [|k IH]; simpl; [constructor|].
  apply Forall_app. split; assumption.
Qed.

Lemma remove_images_repeat (w : world) (l : list string) (k : nat) (st : state) :
  remove_images w (list_repeat l (S k)) st = remove_images w l st.
Proof.
  cbn [list_repeat]. rewrite remove_images_app.
  destruct (remove_images w l st) as [[[]|e] st1] eqn:Hl; [|reflexivity].
  destruct (remove_images_spec _ _ _ _ _ Hl) as (_ & _ & Hgone).
  apply remove_images_absent, Forall_list_repeat, Hgone. reflexivity.
Qed.

(** X8 (the [finally] block after the Sequence Planner).  The block walks
    the repeated list, but a file is removed at its first mention and
    skipped at the later ones: cleaning up after the plan does exactly
    what cleaning up after the downloaded list does. *)
Theorem cleanup_plan_as_downloaded (w : world) (audio_path : string)
    (image_paths : list string) (audio_duration : Q) (img_sequence_file : string)
    (st : state) :
  cleanup w audio_path (plan_images image_paths audio_duration) img_sequence_file st
  = cleanup w audio_path image_paths img_sequence_file st.
Proof.
  destruct (Qlt_le_dec (inject_Z (py_len image_paths * 3)) audio_duration) as [Hlt|Hle].
  - rewrite plan_images_repeat by exact Hlt.
    assert (Hk : 1 <= Qfloor (audio_duration / inject_Z 3) + 1)
      by (apply (repeat_count_positive (py_len image_paths));
          [unfold py_len; lia | exact Hlt]).
    unfold py_list_mul.
    destruct (Z.to_nat (Qfloor (audio_duration / inject_Z 3) + 1)) as [|k] eqn:Hnat; [lia|].
    unfold cleanup. unfold bind at 1 3.
    destruct (os_remove w audio_path st) as [[[]|e] st1]; [|reflexivity].
    unfold bind at 1 2. now rewrite remove_images_repeat.
  - rewrite plan_images_keep by (apply Qle_not_lt; exact Hle). reflexivity.
Qed.

(** * Order of the plan *)

Lemma list_repeat_lookup {A : Type} (l : list A) (k i : nat) :
  (i < k * length l)%nat ->
  list_repeat l k !! i = l !! (i mod length l)%nat.
Proof.
  revert i. induction k as [|k IH]; intros i Hi; [lia|].
  cbn [list_repeat].
  destruct (Nat.lt_ge_cases i (length l)) as [Hlt|Hge].
  - rewrite lookup_app_l by exact Hlt. now rewrite Nat.mod_small.
  - rewrite lookup_app_r by exact Hge.
    rewrite IH by lia.
    f_equal. replace i with ((i - length l) + 1 * length l)%nat at 2 by lia.
    rewrite Nat.Div0.mod_add. reflexivity.
Qed.

(** X9 (Sequence Planner).  The plan cycles through the downloaded images
    in their order: its entry number [i] is image number [i mod n], and
    the plan is at least as long as the downloaded list. *)
Theorem plan_images_cycles (image_paths : list string) (audio_duration : Q) (i : nat) :
  (i < length (plan_images image_paths audio_duration))%nat ->
  plan_images image_paths audio_duration !! i
    = image_paths !! (i mod length image_paths)%nat
  /\ (length image_paths <= length (plan_images image_paths audio_duration))%nat.
Proof.
  destruct (Qlt_le_dec (inject_Z (py_len image_paths * 3)) audio_duration) as [Hlt|Hle].
  - rewrite plan_images_repeat by exact Hlt.
    assert (Hk : 1 <= Qfloor (audio_duration / inject_Z 3) + 1)
      by (apply (repeat_count_positive (py_len image_paths));
          [unfold py_len; lia | exact Hlt]).
    unfold py_list_mul.
    set (k := Z.to_nat (Qfloor (audio_duration / inject_Z 3) + 1)).
    assert (Hk1 : (1 <= k)%nat) by (unfold k; lia).
    assert (Hlen : length (list_repeat image_paths k) = (k * length image_paths)%nat).
    { clear. induction k as [|k IH]; simpl; [reflexivity|].
      rewrite length_app, IH. reflexivity. }
    rewrite Hlen. intros Hi. split; [now apply list_repeat_lookup | nia].
  - rewrite plan_images_keep by (apply Qle_not_lt; exact Hle).
    intros Hi. split; [now rewrite Nat.mod_small | lia].
Qed.

Lemma plan_images_cycles_witness :
  plan_images ["a.jpg"; "b.jpg"] 10 !! 5%nat = ["a.jpg"; "b.jpg"] !! (5 mod 2)%nat
  /\ (2 <= length (plan_images ["a.jpg"; "b.jpg"] 10))%nat.
Proof.
  apply (plan_images_cycles ["a.jpg"; "b.jpg"] 10 5). vm_compute. lia.
Defined.

(** * The extension filter *)

Lemma py_in_char_absent (c0 : ascii) (s : string) :
  all_chars (fun c => negb (Ascii.eqb c c0)) s -> py_in (String c0 "") s = false.
Proof.
  induction s as [|c s IH]; intros H; [reflexivity|].
  apply all_chars_cons in H as [Hc Hs]. apply negb_true_iff in Hc.
  cbn [py_in]. rewrite prefix_char, Ascii.eqb_sym, Hc. now apply IH.
Qed.

Lemma py_in_char_present (c0 : ascii) (a b : string) :
  py_in (String c0 "") (a ++ String c0 b) = true.
Proof.
  induction a as [|c a IH]; push_append; cbn [py_in]; rewrite prefix_char.
  - now rewrite Ascii.eqb_refl.
  - destruct (Ascii.eqb c0 c); [reflexivity | exact IH].
Qed.

Lemma partition_go_through (c0 : ascii) (a b : string) (cur : list ascii) :
  all_chars (fun c => negb (Ascii.eqb c c0)) a ->
  partition_go (String c0 "") (a ++ String c0 b) cur
    = Some (string_of_list_ascii (rev cur) ++ a, b).
Proof.
  revert cur. induction a as [|c a IH]; intros cur H; push_append.
  - cbn [partition_go]. rewrite prefix_char, Ascii.eqb_refl.
    now rewrite string_app_empty_r.
  - apply all_chars_cons in H as [Hc Ha]. apply negb_true_iff in Hc.
    cbn [partition_go]. rewrite prefix_char, Ascii.eqb_sym, Hc.
    rewrite IH by exact Ha. cbn [rev]. rewrite string_of_list_ascii_app.
    cbn [string_of_list_ascii]. now rewrite string_app_snoc.
Qed.

Lemma py_rsplit1_last (c0 : ascii) (stem ext : string) :
  all_chars (fun c => negb (Ascii.eqb c c0)) ext ->
  py_rsplit1 (String c0 "") (stem ++ String c0 ext) = [stem; ext].
Proof.
  intros Hext. unfold py_rsplit1.
  change (string_rev (String c0 "")) with (String c0 "").
  rewrite string_rev_app, string_rev_cons, string_app_snoc.
  rewrite partition_go_through by (apply all_chars_rev; exact Hext).
  cbn [rev string_of_list_ascii]. push_append.
  now rewrite !string_rev_involutive.
Qed.

(** Every name has no dot at all or a last dot. *)
Lemma last_dot (c0 : ascii) (s : string) :
  all_chars (fun c => negb (Ascii.eqb c c0)) s
  \/ exists stem ext : string,
       s = stem ++ String c0 ext /\ all_chars (fun c => negb (Ascii.eqb c c0)) ext.
Proof.
  induction s as [|c s [Hno|(stem & ext & -> & Hext)]].
  - left. constructor.
  - destruct (Ascii.eqb_spec c c0) as [->|Hne].
    + right. exists "", s. split; [reflexivity | exact Hno].
    + left. apply all_chars_cons. split; [|exact Hno].
      apply negb_true_iff. now apply Ascii.eqb_neq.
  - right. exists (String c stem), ext. split; [reflexivity | exact Hext].
Qed.

(** X12 ([allowed_file]).  It never raises; a name without a dot is
    refused, and a name with a dot is accepted exactly when the text after
    its last dot, in lower case, is one of the six allowed extensions. *)
Theorem allowed_file_by_last_extension (filename : string) :
  (all_chars (fun c => negb (Ascii.eqb c ".")) filename /\
   allowed_file filename = Ok false)
  \/ (exists stem ext : string,
        filename = stem ++ "." ++ ext /\
        all_chars (fun c => negb (Ascii.eqb c ".")) ext /\
        allowed_file filename
          = Ok (existsb (String.eqb (py_lower ext)) ALLOWED_EXTENSIONS)).
Proof.
  destruct (last_dot "." filename) as [Hno|(stem & ext & -> & Hext)].
  - left. split; [exact Hno|]. unfold allowed_file. now rewrite py_in_char_absent.
  - right. exists stem, ext. split; [reflexivity|]. split; [exact Hext|].
    unfold allowed_file. push_append.
    rewrite py_in_char_present, py_rsplit1_last by exact Hext. reflexivity.
Qed.

Example allowed_file_samples :
  allowed_file "PHOTO.JPG" = Ok true /\ allowed_file "clip.mp4" = Ok false /\
  allowed_file "archive.tar.mp3" = Ok true /\ allowed_file "mp3" = Ok false /\
  allowed_file ".wav" = Ok true /\ allowed_file "name." = Ok false.
Proof. repeat split; reflexivity. Qed.

(** * More on the delete route *)

(** X14 ([delete_video]).  A second delete of the same name finds
    nothing: after an answer 200 the same request is answered 404 and
    changes nothing. *)
Theorem delete_video_twice (w : world) (data : delete_request) (st st' : state)
    (r : response) :
  delete_video w data st = (Ok r, st') ->
  resp_status r = 200 ->
  exists r2 : response,
    delete_video w data st' = (Ok r2, st') /\ resp_status r2 = 404.
Proof.
  unfold delete_video. destruct (filename data) as [requested|].
  2:{ intros [= <- <-]. discriminate. }
  set (name := secure_filename w requested).
  set (video_path := path_join VIDEO_FOLDER name).
  destruct (path_exists st video_path) eqn:Hex; cbn [negb].
  2:{ intros [= <- <-]. discriminate. }
  destruct (path_isfile st video_path) eqn:Hfile; cbn [negb].
  2:{ intros [= <- <-]. discriminate. }
  unfold try_except, bind, os_remove.
  destruct (stat st video_path) as [[c|]|];
    try (intros [= <- <-]; discriminate).
  destruct (remove_denied w (resolve video_path)).
  { intros [= <- <-]. discriminate. }
  intros [= <- <-] _.
  assert (Hgone : path_exists (set_fs (delete (resolve video_path)) st) video_path = false).
  { unfold path_exists, stat, set_fs. cbn [fs]. now rewrite lookup_delete_eq. }
  rewrite Hgone. cbn [negb]. eexists. split; reflexivity.
Qed.

Lemma delete_video_twice_witness :
  exists r2 : response,
    delete_video (sample_world "" 0) {| filename := Some "a.mp4" |}
      (set_fs (delete ["videos"; "a.mp4"]) sample_state)
    = (Ok r2, set_fs (delete ["videos"; "a.mp4"]) sample_state)
    /\ resp_status r2 = 404.
Proof.
  apply (delete_video_twice (sample_world "" 0) {| filename := Some "a.mp4" |} sample_state
           (set_fs (delete ["videos"; "a.mp4"]) sample_state)
           (json_status "success"
              (Lit "Video file 'a.mp4' has been deleted successfully.") 200));
    reflexivity.
Defined.

(** X15 ([delete_video]).  A filename that the sanitizer empties ([../],
    [..], [/], [._] and the like) makes the path the output folder itself:
    with the folder in place the answer is 400 and nothing is removed. *)
Theorem delete_video_empty_name (w : world) (requested : string) (st : state) :
  secure_filename w requested = "" ->
  fs st !! [VIDEO_FOLDER] = Some Dir ->
  delete_video w {| filename := Some requested |} st
    = (Ok (json_status "error" (Lit "'' is not a valid file.") 400), st).
Proof.
  intros Hname Hdir. unfold delete_video. cbn [filename]. rewrite Hname.
  change (path_join VIDEO_FOLDER "") with "videos/".
  unfold path_exists, path_isfile, stat.
  change (resolve "videos/") with [VIDEO_FOLDER]. rewrite Hdir. reflexivity.
Qed.

Lemma delete_video_empty_name_witness :
  delete_video (sample_world "" 0) {| filename := Some "../" |} sample_state
    = (Ok (json_status "error" (Lit "'' is not a valid file.") 400), sample_state).
Proof.
  apply (delete_video_empty_name (sample_world "" 0) "../" sample_state); reflexivity.
Defined.

(** * The resize route *)

Lemma resized_path_shape (uuid : string) :
  wants_dir (uuid ++ "_" ++ "resized_exact.jpg") = false
  /\ truthy (Some (uuid ++ "_" ++ "resized_exact.jpg"))
     = Some (uuid ++ "_" ++ "resized_exact.jpg").
Proof.
  assert (Hend : uuid ++ "_" ++ "resized_exact.jpg" = (uuid ++ "_resized_exact.jp") ++ "g")
    by (now rewrite string_app_assoc).
  split.
  - unfold wants_dir. rewrite Hend, string_rev_snoc. reflexivity.
  - unfold truthy. destruct uuid; reflexivity.
Qed.

(** What one exact-fit resize does: it always draws one identifier; it
    returns no path and writes nothing, or it returns
    [<uuid>_<output_filename>] after writing there the source image in
    exactly the new size. *)
Lemma resize_image_exact_cases (w : world) (image_url : string) (new_width new_height : Z)
    (output_filename : string) (st : state) :
  let path := uuid4 w (drawn st) ++ "_" ++ output_filename in
  resize_image_exact w image_url new_width new_height output_filename st
    = (Ok None, {| fs := fs st; drawn := S (drawn st) |})
  \/ (exists (code : Z) (body : content) (sw sh : Z),
        resize_image_exact w image_url new_width new_height output_filename st
        = (Ok (Some path),
           {| fs := <[resolve path := File (with_size body new_width new_height)]> (fs st);
              drawn := S (drawn st) |})
        /\ http_get w image_url = Reply code body true
        /\ ~ (400 <= code < 600)
        /\ image_size body = Some (sw, sh) /\ 0 < sw /\ 0 < sh
        /\ 0 < new_width /\ 0 < new_height
        /\ fits w body new_width new_height = true
        /\ resavable w image_url = true
        /\ can_open st path = true).
Proof.
  intros path.
  unfold resize_image_exact, try_except, bind, fresh_uuid, requests_get_content, raise, ret.
  fold path.
  destruct (http_get w image_url) as [|code body complete]; [left; reflexivity|].
  destruct complete; [|left; reflexivity].
  destruct ((400 <=? code) && (code <? 600))%Z eqn:Hcode; [left; reflexivity|].
  unfold image_open.
  destruct (image_size body) as [[sw sh]|] eqn:Hsize; [|left; reflexivity].
  unfold image_fit. cbn [fst snd].
  destruct ((0 <? sw) && (0 <? sh) && (0 <? new_width) && (0 <? new_height))%Z eqn:Hpos;
    [|left; reflexivity].
  destruct (fits w body new_width new_height) eqn:Hfits; [|left; reflexivity].
  cbn [andb]. unfold save_as_source, write_file, raise.
  destruct (resavable w image_url) eqn:Hsave; [|left; reflexivity].
  rewrite (can_open_drawn st (S (drawn st))).
  destruct (can_open st path) eqn:Hopen; [|left; reflexivity].
  right. exists code, body, sw, sh. split; [reflexivity|].
  apply andb_true_iff in Hpos as [Hpos Hh]. apply andb_true_iff in Hpos as [Hpos Hw].
  apply andb_true_iff in Hpos as [Hsw Hsh].
  apply andb_false_iff in Hcode.
  split; [reflexivity|]. split; [lia|]. split; [exact Hsize|].
  repeat (split; [lia|]). auto.
Qed.

(** X16 (the view [resize_image()] with [resize_image_exact]).  A
    missing, malformed or zero width or height, or a missing or empty
    url, is answered 400 before anything is fetched.  Otherwise one
    identifier is drawn, and either the answer is 500 with no file
    written, or the file [<uuid>_resized_exact.jpg] is written in the
    working directory and holds the fetched image in exactly the
    requested width and height.  The written file is then looked up
    under the application's folder: it is sent when it is found there,
    as it is whenever the server runs in that folder; when it is not,
    the lookup raises and the written file stays behind.  A file is
    written only for a complete reply outside the 4xx and 5xx codes that
    decodes as an image, a size that is positive and that the imaging
    library can produce, a source format that it can write, and an
    output path that can be opened. *)
Theorem resize_view_answers (w : world) (args : resize_args) (st : state) :
  ((truthy_int (arg_width args) = None \/ truthy_int (arg_height args) = None
    \/ truthy (arg_url args) = None)
   /\ resize_image_view w args st
      = (Ok (ResizeJson (json_status "error"
                           (Lit "Both width and height are required.") 400)), st))
  \/ (exists (width height : Z) (url : string),
        truthy_int (arg_width args) = Some width /\
        truthy_int (arg_height args) = Some height /\
        truthy (arg_url args) = Some url /\
        let path := uuid4 w (drawn st) ++ "_" ++ "resized_exact.jpg" in
        (resize_image_view w args st
         = (Ok (ResizeJson (json_status "error" (Lit "Failed to resize image.") 500)),
            {| fs := fs st; drawn := S (drawn st) |})
         \/ (exists (code : Z) (body : content) (sw sh : Z),
               let st1 := {| fs := <[resolve path := File (with_size body width height)]>
                                     (fs st);
                             drawn := S (drawn st) |} in
               resize_image_view w args st
               = (if path_isfile st1 (path_join (app_root w) path)
                  then Ok (ResizedFile path) else Raise OSError, st1)
               /\ (app_root w = "" -> path_isfile st1 (path_join (app_root w) path) = true)
               /\ http_get w url = Reply code body true
               /\ ~ (400 <= code < 600)
               /\ image_size body = Some (sw, sh) /\ 0 < sw /\ 0 < sh
               /\ 0 < width /\ 0 < height
               /\ fits w body width height = true
               /\ resavable w url = true
               /\ can_open st path = true))).
Proof.
  unfold resize_image_view.
  destruct (truthy_int (arg_width args)) as [width|]; [|left; auto].
  destruct (truthy_int (arg_height args)) as [height|]; [|left; auto].
  destruct (truthy (arg_url args)) as [url|]; [|left; auto].
  right. exists width, height, url.
  split; [reflexivity|]. split; [reflexivity|]. split; [reflexivity|].
  cbv zeta. set (path := uuid4 w (drawn st) ++ "_" ++ "resized_exact.jpg").
  destruct (resized_path_shape (uuid4 w (drawn st))) as [Hdir Htruthy].
  fold path in Hdir, Htruthy.
  unfold bind.
  destruct (resize_image_exact_cases w url width height "resized_exact.jpg" st)
    as [Hnone|(code & body & sw & sh & Hsome & Hrest)]; fold path in Hsome || idtac.
  - left. rewrite Hnone. reflexivity.
  - right. exists code, body, sw, sh. rewrite Hsome, Htruthy.
    unfold send_resized.
    split; [destruct (path_isfile _ _); reflexivity|].
    split; [|exact Hrest].
    intros ->.
    assert (Hjoin : path_join "" path = path)
      by (unfold path_join; destruct (String.prefix "/" path); reflexivity).
    rewrite Hjoin. unfold path_isfile, stat. cbn [fs].
    rewrite lookup_insert_eq, Hdir. reflexivity.
Qed.

Lemma resize_view_answers_witness :
  app_root (sample_world "" 0) = ""
  /\ resize_image_view (sample_world "" 0)
       {| arg_width := Some 8; arg_height := Some 10;
          arg_url := Some "http://host/odd.jpg" |} sample_state
     = (Ok (ResizedFile "id0_resized_exact.jpg"),
        {| fs := <[ ["id0_resized_exact.jpg"] := File (Img 8 10) ]> (fs sample_state);
           drawn := 1 |}).
Proof.
  split; [reflexivity|].
  destruct (resize_view_answers (sample_world "" 0)
              {| arg_width := Some 8; arg_height := Some 10;
                 arg_url := Some "http://host/odd.jpg" |} sample_state)
    as [[[H|[H|H]] _]
       |(width & height & url & Hw & Hh & Hu
         & [H|(code & body & sw & sh & H & Hroot & Hget & _)])];
    try discriminate.
  cbv zeta in H, Hroot. rewrite (Hroot eq_refl) in H.
  injection Hw as <-. injection Hh as <-. injection Hu as <-.
  injection Hget as _ <-. rewrite H. reflexivity.
Defined.

(** A size of zero counts as a missing one: no fetch, no identifier, no
    file, answer 400; a negative size is fetched for and answered 500. *)
Example resize_view_samples :
  let w := sample_world "" 0 in
  resize_image_view w {| arg_width := Some 0; arg_height := Some 10;
                         arg_url := Some "http://host/odd.jpg" |} sample_state
    = (Ok (ResizeJson (json_status "error"
                         (Lit "Both width and height are required.") 400)), sample_state)
  /\ resize_image_view w {| arg_width := Some (-4); arg_height := Some 10;
                            arg_url := Some "http://host/odd.jpg" |} sample_state
     = (Ok (ResizeJson (json_status "error" (Lit "Failed to resize image.") 500)),
        {| fs := fs sample_state; drawn := 1 |})
  /\ resize_image_view w {| arg_width := Some 8; arg_height := Some 10;
                            arg_url := Some "http://host/odd.jpg" |} sample_state
     = (Ok (ResizedFile "id0_resized_exact.jpg"),
        {| fs := <[ ["id0_resized_exact.jpg"] := File (Img 8 10) ]> (fs sample_state);
           drawn := 1 |}).
Proof. repeat split; reflexivity. Qed.

(** * Reading a well-formed duration line *)




















